(** * Coach payment proration: the [/api/payments/current-month] route

    A shallow embedding of the payment computation of the coaching
    back office (server routes and storage) together with the parts of
    the JavaScript runtime and of date-fns that it calls.

    - [JsDate]   : the time values of ECMAScript [Date] objects (a number
                   of milliseconds), with the calendar functions of the
                   language standard ([Day], [DayFromYear], [YearFromTime],
                   [MonthFromTime], [DateFromTime], [MakeDay], [MakeDate]),
                   read in the server's local time.  The local zone is
                   taken to have a fixed offset from UTC, so local time
                   values are a uniform time line.  [TimeClip] (time values
                   beyond 8.64e15 ms are invalid dates) is left out.
    - [JsNumber] : IEEE 754 doubles (Rocq's primitive floats) with
                   [parseFloat] on a decimal(10,2) column and [toFixed].
    - [Routes]   : [calculatePaymentDate] and the route handler, statement
                   by statement. *)

From Stdlib Require Import ZArith List Bool String Ascii Lia Floats DecimalString.
From Stdlib Require Import Sorting.Sorted Sorting.Permutation.
Import ListNotations.
Open Scope Z_scope.

(* ================================================================== *)
(** ** ECMAScript dates *)
(* ================================================================== *)

Module JsDate.

(** A [Date] object wraps its time value: milliseconds since the epoch,
    here on the local time line. *)
Definition Date := Z.

Definition msPerDay : Z := 86400000.

Definition Day (t : Date) : Z := t / msPerDay.
Definition TimeWithinDay (t : Date) : Z := t mod msPerDay.

Definition isLeapYear (y : Z) : bool :=
  (y mod 4 =? 0) && (negb (y mod 100 =? 0) || (y mod 400 =? 0)).

Definition DaysInYear (y : Z) : Z := if isLeapYear y then 366 else 365.

Definition DayFromYear (y : Z) : Z :=
  365 * (y - 1970) + (y - 1969) / 4 - (y - 1901) / 100 + (y - 1601) / 400.

(** [YearFromTime]: the largest [y] with [DayFromYear y <= day].  The
    search starts from a year that is not after the answer and climbs. *)
Fixpoint yearSearch (fuel : nat) (y day : Z) : Z :=
  match fuel with
  | O => y
  | S fuel' =>
      if DayFromYear (y + 1) <=? day then yearSearch fuel' (y + 1) day else y
  end.

Definition yearLo (day : Z) : Z :=
  1970 + (if 0 <=? day then day / 366 else day / 365).

Definition yearHi (day : Z) : Z :=
  1970 + (if 0 <=? day then day / 365 else day / 366) + 1.

Definition YearFromDay (day : Z) : Z :=
  yearSearch (Z.to_nat (yearHi day - yearLo day)) (yearLo day) day.

Definition YearFromTime (t : Date) : Z := YearFromDay (Day t).

Definition InLeapYear (t : Date) : Z :=
  if isLeapYear (YearFromTime t) then 1 else 0.

Definition DayWithinYear (t : Date) : Z :=
  Day t - DayFromYear (YearFromTime t).

(** The first day of month [m] (0 = January) counted within its year;
    [leap] is 1 in a leap year and 0 otherwise. *)
Definition monthStart (leap m : Z) : Z :=
  match m with
  | 0 => 0
  | 1 => 31
  | 2 => 59 + leap
  | 3 => 90 + leap
  | 4 => 120 + leap
  | 5 => 151 + leap
  | 6 => 181 + leap
  | 7 => 212 + leap
  | 8 => 243 + leap
  | 9 => 273 + leap
  | 10 => 304 + leap
  | 11 => 334 + leap
  | _ => 365 + leap
  end.

Definition monthOfYearDay (leap d : Z) : Z :=
  if d <? 31 then 0
  else if d <? 59 + leap then 1
  else if d <? 90 + leap then 2
  else if d <? 120 + leap then 3
  else if d <? 151 + leap then 4
  else if d <? 181 + leap then 5
  else if d <? 212 + leap then 6
  else if d <? 243 + leap then 7
  else if d <? 273 + leap then 8
  else if d <? 304 + leap then 9
  else if d <? 334 + leap then 10
  else 11.

Definition MonthFromTime (t : Date) : Z :=
  monthOfYearDay (InLeapYear t) (DayWithinYear t).

Definition DateFromTime (t : Date) : Z :=
  DayWithinYear t - monthStart (InLeapYear t) (MonthFromTime t) + 1.

Definition MakeDay (year month date : Z) : Z :=
  let ym := year + month / 12 in
  let mn := month mod 12 in
  DayFromYear ym + monthStart (if isLeapYear ym then 1 else 0) mn + date - 1.

Definition MakeDate (day time : Z) : Date := day * msPerDay + time.

(** [new Date(year, month, date)]: local midnight; a year from 0 to 99
    stands for 1900 + year. *)
Definition newDate (year month date : Z) : Date :=
  let yr := if (0 <=? year) && (year <=? 99) then 1900 + year else year in
  MakeDate (MakeDay yr month date) 0.

Definition getFullYear (d : Date) : Z := YearFromTime d.
Definition getMonth (d : Date) : Z := MonthFromTime d.
Definition getDate (d : Date) : Z := DateFromTime d.
Definition getTime (d : Date) : Z := d.

(** [d.setDate(dt)]: same year, month and time of day, day of month [dt]
    (out-of-range values run over into the neighbouring months). *)
Definition setDate (d : Date) (dt : Z) : Date :=
  MakeDate (MakeDay (YearFromTime d) (MonthFromTime d) dt) (TimeWithinDay d).

(** Number of days of month [m] (0 to 11) of year [y]. *)
Definition DaysInMonth (y m : Z) : Z :=
  let leap := if isLeapYear y then 1 else 0 in
  monthStart leap (m + 1) - monthStart leap m.

(** *** date-fns *)

(** A value of a SQL [date] column, as the driver hands it over: the text
    [yyyy-MM-dd] of a calendar date (month 1 to 12). *)
Record IsoDate : Type := iso { isoYear : Z; isoMonth : Z; isoDay : Z }.

(** [parseISO] of a date without time: local midnight of that day. *)
Definition parseISO (s : IsoDate) : Date :=
  MakeDate (MakeDay (isoYear s) (isoMonth s - 1) (isoDay s)) 0.

(** [differenceInDays(later, earlier)]: the number of full days between
    the two instants, truncated towards zero. *)
Definition differenceInDays (dateLeft dateRight : Date) : Z :=
  Z.quot (dateLeft - dateRight) msPerDay.

(** An instant given by its local calendar fields and time of day. *)
Definition at_time (s : IsoDate) (ms : Z) : Date := parseISO s + ms.

End JsDate.

(* ================================================================== *)
(** ** ECMAScript numbers *)
(* ================================================================== *)

Module JsNumber.

(** The Number nearest to an integer (round to nearest, ties to even);
    exact below 2^53, as for every day count. *)
Definition of_Z (z : Z) : float :=
  SF2Prim (binary_normalize prec emax z 0 false).

(** A value of a SQL [decimal(10,2)] column, as the driver hands it over:
    the decimal text of [hundredths / 100]. *)
Record Decimal : Type := decimal { hundredths : Z }.

(** [parseFloat] of such a text: the Number nearest to the decimal value.
    Both [hundredths] (below 2^53 for a ten-digit column) and 100 are
    Numbers, and IEEE division rounds the exact quotient once. *)
Definition parseFloat (s : Decimal) : float :=
  (of_Z (hundredths s) / of_Z 100)%float.

Definition digits (n : Z) : string :=
  NilZero.string_of_uint (N.to_uint (Z.to_N n)).

Fixpoint zeros (k : nat) : string :=
  match k with
  | O => EmptyString
  | S k' => String "0"%char (zeros k')
  end.

(** [x.toFixed(f)].  A finite [x] is [m * 2^e]; [n] is the integer nearest
    to [|x| * 10^f], the larger one on a tie.  From 1e21 on the runtime
    prints [x] as [String(x)] does, in exponent notation; the model prints
    the digits of the integer instead.  Amounts of that size do not arise
    from a decimal(10,2) fee. *)
Definition toFixed (x : float) (f : nat) : string :=
  match Prim2SF x with
  | S754_nan => "NaN"%string
  | S754_infinity s => if s then "-Infinity"%string else "Infinity"%string
  | S754_zero _ => (digits 0 ++ match f with O => EmptyString | _ => "." ++ zeros f end)%string
  | S754_finite s m e =>
      let sign := if s then "-"%string else EmptyString in
      if (0 <=? e) && (10 ^ 21 <=? Zpos m * 2 ^ e) then
        (sign ++ digits (Zpos m * 2 ^ e))%string
      else
        let scale := 10 ^ Z.of_nat f in
        let n := if 0 <=? e then Zpos m * 2 ^ e * scale
                 else (2 * Zpos m * scale + 2 ^ (- e)) / 2 ^ (- e + 1) in
        let b := digits (n mod scale) in
        (sign ++ digits (n / scale)
           ++ match f with
              | O => EmptyString
              | _ => "." ++ zeros (f - String.length b) ++ b
              end)%string
  end.

End JsNumber.

Import JsDate JsNumber.

(* ================================================================== *)
(** ** Schema, storage and the payment route *)
(* ================================================================== *)

Module Routes.

(** *** shared/schema.ts *)

Record Student : Type := {
  student_id : string;
  student_firstName : string;
  student_lastName : string;
  packageStartDate : IsoDate;
  packageEndDate : IsoDate;
  isActive : Z
}.

Record CoachWithStudents : Type := {
  coach_id : string;
  firstName : string;
  lastName : string;
  students : list Student
}.

Record CoachTransfer : Type := {
  studentId : string;
  oldCoachId : string;
  newCoachId : string;
  transferDate : IsoDate
}.

Record SystemSettings : Type := {
  coachMonthlyFee : Decimal;
  globalPaymentDay : Z
}.

Record PaymentBreakdownItem : Type := {
  item_studentId : string;
  studentName : string;
  amount : string;
  daysWorked : Z
}.

Record CoachPaymentSummary : Type := {
  coachId : string;
  coachName : string;
  activeStudentCount : Z;
  totalAmount : string;
  breakdown : list PaymentBreakdownItem
}.

(** *** server/storage.ts, as the route sees it *)

(** An awaited promise either yields its value or throws. *)
Inductive Promise (A : Type) : Type :=
| Resolved (a : A)
| Rejected.
Arguments Resolved {A} a.
Arguments Rejected {A}.

Definition await {A B : Type} (p : Promise A) (k : A -> Promise B) : Promise B :=
  match p with
  | Resolved a => k a
  | Rejected => Rejected
  end.

Notation "'let*' x ':=' p 'in' k" := (await p (fun x => k))
  (at level 10, x name, p at level 100, k at level 200).

(** The three reads of the route.  [getAllCoaches] gives the active
    coaches, each with its active students; [getStudentTransferHistory]
    gives the rows of one student ordered by [transferDate] descending
    and by nothing else (lines 301-308). *)
Record IStorage : Type := {
  getAllCoaches : Promise (list CoachWithStudents);
  getSettings : Promise SystemSettings;
  getStudentTransferHistory : string -> Promise (list CoachTransfer)
}.

(** *** The runtime's [Map] and [Array.prototype.sort] *)

(** A [Map] keeps its keys in the order of their first insertion; [set]
    on a present key replaces the value where it stands. *)
Section JsMap.
Context {V : Type}.

Fixpoint map_get (k : string) (m : list (string * V)) : option V :=
  match m with
  | [] => None
  | (k', v) :: m' => if String.eqb k k' then Some v else map_get k m'
  end.

Fixpoint map_set (k : string) (v : V) (m : list (string * V)) : list (string * V) :=
  match m with
  | [] => [(k, v)]
  | (k', v') :: m' =>
      if String.eqb k k' then (k, v) :: m' else (k', v') :: map_set k v m'
  end.
End JsMap.

(** [sort] is stable: elements that compare equal keep their order.  With
    a consistent comparator that fixes the result, which insertion from
    the right computes. *)
Section JsSort.
Context {A : Type} (compareFn : A -> A -> Z).

Fixpoint insertSorted (x : A) (l : list A) : list A :=
  match l with
  | [] => [x]
  | y :: l' =>
      if compareFn x y <=? 0 then x :: l else y :: insertSorted x l'
  end.

Definition sort (l : list A) : list A := fold_right insertSorted [] l.
End JsSort.

(** *** server/routes.ts

    Line numbers are those of the source file that holds the storage
    class and the routes (part_000). *)

(** Lines 570-579. *)
Definition calculatePaymentDate (year month day : Z) : Date :=
  let date := newDate year month 1 in
  let lastDay := getDate (newDate year (month + 1) 0) in
  let actualDay := Z.min day lastDay in
  setDate date actualDay.

(** Lines 589-600: the upcoming or current payment date; [today] is the
    value of [new Date()]. *)
Definition currentPaymentDate (today : Date) (paymentDay : Z) : Date :=
  let currentYear := getFullYear today in
  let currentMonth := getMonth today in
  let currentPaymentDate := calculatePaymentDate currentYear currentMonth paymentDay in
  if currentPaymentDate <? today
  then calculatePaymentDate currentYear (currentMonth + 1) paymentDay
  else currentPaymentDate.

(** Lines 602-608. *)
Definition prevPaymentDate (today : Date) (paymentDay : Z) : Date :=
  let payYear := getFullYear (currentPaymentDate today paymentDay) in
  let payMonth := getMonth (currentPaymentDate today paymentDay) in
  let prevYear := if payMonth =? 0 then payYear - 1 else payYear in
  let prevMonth := if payMonth =? 0 then 11 else payMonth - 1 in
  calculatePaymentDate prevYear prevMonth paymentDay.

(** Lines 610-613. *)
Definition cycleStart (today : Date) (paymentDay : Z) : Date :=
  let cycleStart := prevPaymentDate today paymentDay in
  setDate cycleStart (getDate cycleStart + 1).

Definition cycleEnd (today : Date) (paymentDay : Z) : Date :=
  currentPaymentDate today paymentDay.

(** Lines 615-622. *)
Definition allStudents (coaches : list CoachWithStudents) : list (Student * string) :=
  flat_map
    (fun coach =>
       map (fun student => (student, coach_id coach))
           (filter (fun s => isActive s =? 1) (students coach)))
    coaches.

Record CoachData : Type := {
  data_coachName : string;
  data_breakdown : list PaymentBreakdownItem;
  data_totalAmount : float
}.

Definition PaymentMap : Type := list (string * CoachData).

(** Lines 631-638. *)
Definition initCoachPayments (coaches : list CoachWithStudents) : PaymentMap :=
  fold_left
    (fun coachPayments coach =>
       map_set (coach_id coach)
         {| data_coachName := (firstName coach ++ " " ++ lastName coach)%string;
            data_breakdown := [];
            data_totalAmount := 0 |}
         coachPayments)
    coaches [].

Record Period : Type := {
  period_coachId : string;
  period_start : Date;
  period_end : Date
}.

(** Lines 642-647. *)
Definition workStart (cycleStart : Date) (student : Student) : Date :=
  let studentStart := parseISO (packageStartDate student) in
  if cycleStart <? studentStart then studentStart else cycleStart.

Definition workEnd (cycleEnd : Date) (student : Student) : Date :=
  let studentEnd := parseISO (packageEndDate student) in
  if studentEnd <? cycleEnd then studentEnd else cycleEnd.

(** Lines 655-658. *)
Definition sortedTransfers (allTransfers : list CoachTransfer) : list CoachTransfer :=
  sort (fun a b => getTime (parseISO (transferDate a)) - getTime (parseISO (transferDate b)))
       allTransfers.

(** Lines 660-678. *)
Definition coachAtWorkStart (sortedTransfers : list CoachTransfer)
    (workStart : Date) (currentCoachId : string) : string :=
  let transfersBeforeWorkStart :=
    filter (fun t => parseISO (transferDate t) <? workStart) sortedTransfers in
  match rev transfersBeforeWorkStart with
  | mostRecent :: _ => newCoachId mostRecent
  | [] =>
      match sortedTransfers with
      | first :: _ => oldCoachId first
      | [] => currentCoachId
      end
  end.

(** Lines 680-685. *)
Definition relevantTransfers (sortedTransfers : list CoachTransfer)
    (workStart workEnd : Date) : list CoachTransfer :=
  filter
    (fun t =>
       let tDate := parseISO (transferDate t) in
       (workStart <=? tDate) && (tDate <=? workEnd))
    sortedTransfers.

(** Lines 714-731, the loop over [i] from 0 to [length - 2]: one step
    per pair of neighbours. *)
Fixpoint middlePeriods (studentEnd : Date) (relevantTransfers : list CoachTransfer)
    : list Period :=
  match relevantTransfers with
  | currentTransfer :: ((nextTransfer :: _) as rest) =>
      let currentTransferDate := parseISO (transferDate currentTransfer) in
      let nextTransferDate := parseISO (transferDate nextTransfer) in
      let dayBeforeNext := setDate nextTransferDate (getDate nextTransferDate - 1) in
      (if (currentTransferDate <=? dayBeforeNext) && (currentTransferDate <=? studentEnd)
       then [ {| period_coachId := newCoachId currentTransfer;
                 period_start := currentTransferDate;
                 period_end := if dayBeforeNext <? studentEnd
                               then dayBeforeNext else studentEnd |} ]
       else [])
      ++ middlePeriods studentEnd rest
  | _ => []
  end.

(** Lines 687-744. *)
Definition buildPeriods (coachAtWorkStart : string) (workStart workEnd studentEnd : Date)
    (relevantTransfers : list CoachTransfer) : list Period :=
  match relevantTransfers with
  | [] =>
      [ {| period_coachId := coachAtWorkStart;
           period_start := workStart;
           period_end := workEnd |} ]
  | firstTransfer :: _ =>
      let firstTransferDate := parseISO (transferDate firstTransfer) in
      (if workStart <? firstTransferDate then
         let dayBeforeTransfer := setDate firstTransferDate (getDate firstTransferDate - 1) in
         [ {| period_coachId := coachAtWorkStart;
              period_start := workStart;
              period_end := if dayBeforeTransfer <? workEnd
                            then dayBeforeTransfer else workEnd |} ]
       else [])
      ++ middlePeriods studentEnd relevantTransfers
      ++ (let lastTransfer := last relevantTransfers firstTransfer in
          let lastTransferDate := parseISO (transferDate lastTransfer) in
          if lastTransferDate <=? workEnd then
            [ {| period_coachId := newCoachId lastTransfer;
                 period_start := lastTransferDate;
                 period_end := workEnd |} ]
          else [])
  end.

(** Lines 643-744: the periods of one student, from the transfer history
    as retrieved. *)
Definition studentPeriods (cycleStart cycleEnd : Date) (student : Student)
    (currentCoachId : string) (allTransfers : list CoachTransfer) : list Period :=
  let studentEnd := parseISO (packageEndDate student) in
  let workStart := workStart cycleStart student in
  let workEnd := workEnd cycleEnd student in
  let sortedTransfers := sortedTransfers allTransfers in
  let coachAtWorkStart := coachAtWorkStart sortedTransfers workStart currentCoachId in
  let relevantTransfers := relevantTransfers sortedTransfers workStart workEnd in
  buildPeriods coachAtWorkStart workStart workEnd studentEnd relevantTransfers.

Definition periodDays (period : Period) : Z :=
  differenceInDays (period_end period) (period_start period) + 1.

(** Lines 746-765: one turn of the loop over [periods]. *)
Definition creditPeriod (monthlyFee : float) (student : Student)
    (coachPayments : PaymentMap) (period : Period) : PaymentMap :=
  let dailyFee := (monthlyFee / 30)%float in
  if period_start period <=? period_end period then
    let daysWorked := periodDays period in
    let amount := (dailyFee * of_Z daysWorked)%float in
    match map_get (period_coachId period) coachPayments with
    | Some coachData =>
        map_set (period_coachId period)
          {| data_coachName := data_coachName coachData;
             data_breakdown :=
               data_breakdown coachData ++
               [ {| item_studentId := student_id student;
                    studentName :=
                      (student_firstName student ++ " " ++ student_lastName student)%string;
                    amount := toFixed amount 2;
                    daysWorked := daysWorked |} ];
             data_totalAmount := (data_totalAmount coachData + amount)%float |}
          coachPayments
    | None => coachPayments
    end
  else coachPayments.

(** Lines 641-766: one turn of the loop over [allStudents]. *)
Definition processStudent (storage : IStorage) (monthlyFee : float)
    (cycleStart cycleEnd : Date) (coachPayments : PaymentMap)
    (entry : Student * string) : Promise PaymentMap :=
  let '(student, currentCoachId) := entry in
  if workEnd cycleEnd student <? workStart cycleStart student then
    Resolved coachPayments
  else
    let* allTransfers := getStudentTransferHistory storage (student_id student) in
    let periods := studentPeriods cycleStart cycleEnd student currentCoachId allTransfers in
    Resolved (fold_left (creditPeriod monthlyFee student) periods coachPayments).

Fixpoint processStudents (storage : IStorage) (monthlyFee : float)
    (cycleStart cycleEnd : Date) (coachPayments : PaymentMap)
    (entries : list (Student * string)) : Promise PaymentMap :=
  match entries with
  | [] => Resolved coachPayments
  | entry :: rest =>
      let* coachPayments' :=
        processStudent storage monthlyFee cycleStart cycleEnd coachPayments entry in
      processStudents storage monthlyFee cycleStart cycleEnd coachPayments' rest
  end.

(** Lines 768-780. *)
Definition buildSummaries (coachPayments : PaymentMap) : list CoachPaymentSummary :=
  flat_map
    (fun '(coachId, data) =>
       if (0 <? List.length (data_breakdown data))%nat then
         [ {| coachId := coachId;
              coachName := data_coachName data;
              activeStudentCount := Z.of_nat (List.length (data_breakdown data));
              totalAmount := toFixed (data_totalAmount data) 2;
              breakdown := data_breakdown data |} ]
       else [])
    coachPayments.

(** Lines 583-782: the body of the [try] block, up to
    [res.json(summaries)]. *)
Definition computeSummaries (storage : IStorage) (today : Date)
    : Promise (list CoachPaymentSummary) :=
  let* coaches := getAllCoaches storage in
  let* settings := getSettings storage in
  let monthlyFee := parseFloat (coachMonthlyFee settings) in
  let paymentDay := globalPaymentDay settings in
  let cycleStart := cycleStart today paymentDay in
  let cycleEnd := cycleEnd today paymentDay in
  let* coachPayments :=
    processStudents storage monthlyFee cycleStart cycleEnd
      (initCoachPayments coaches) (allStudents coaches) in
  Resolved (buildSummaries coachPayments).

Inductive Response : Type :=
| json (summaries : list CoachPaymentSummary)
| status500 (message : string).

(** Lines 582-787: [app.get("/api/payments/current-month", ...)] with
    [new Date()] returning [today]; a throw inside the [try] block
    answers with status 500. *)
Definition paymentsCurrentMonth (storage : IStorage) (today : Date) : Response :=
  match computeSummaries storage today with
  | Resolved summaries => json summaries
  | Rejected => status500 "Failed to calculate payments"%string
  end.

End Routes.

Import Routes.

(* ================================================================== *)
(** ** Notions used in the statements *)
(* ================================================================== *)

(** 1 in a leap year, 0 otherwise. *)
Definition leapDay (y : Z) : Z := if isLeapYear y then 1 else 0.

(** The payment day clamped to the length of month [m] (0 to 11) of year
    [y], at local midnight. *)
Definition clampedPaymentDate (y m paymentDay : Z) : Date :=
  MakeDate (MakeDay y m (Z.min paymentDay (DaysInMonth y m))) 0.

(** The calendar month after and before a (year, month) pair. *)
Definition nextMonth (ym : Z * Z) : Z * Z :=
  let '(y, m) := ym in if m =? 11 then (y + 1, 0) else (y, m + 1).

Definition previousMonth (ym : Z * Z) : Z * Z :=
  let '(y, m) := ym in if m =? 0 then (y - 1, 11) else (y, m - 1).

(** A time value at local midnight. *)
Definition midnight (t : Date) : Prop := TimeWithinDay t = 0.

(** [tiles a b ps]: the periods [ps] cover the days from [a] to [b], each
    period starting the day after the one before it ends. *)
Inductive tiles : Date -> Date -> list Period -> Prop :=
| tiles_last (a b : Date) (c : string) :
    a <= b ->
    tiles a b [ {| period_coachId := c; period_start := a; period_end := b |} ]
| tiles_cons (a e b : Date) (c : string) (ps : list Period) :
    a <= e -> midnight e ->
    tiles (e + msPerDay) b ps ->
    tiles a b ({| period_coachId := c; period_start := a; period_end := e |} :: ps).

(** The sort key of a transfer. *)
Definition transferTime (t : CoachTransfer) : Date := parseISO (transferDate t).

Definition sumZ (l : list Z) : Z := fold_right Z.add 0 l.

(** The breakdown item a credited period adds. *)
Definition itemOf (monthlyFee : float) (student : Student) (period : Period)
    : PaymentBreakdownItem :=
  {| item_studentId := student_id student;
     studentName := (student_firstName student ++ " " ++ student_lastName student)%string;
     amount := toFixed (monthlyFee / 30 * of_Z (periodDays period))%float 2;
     daysWorked := periodDays period |}.

(** A period that passes the loop's test and names coach [id]. *)
Definition attributed (id : string) (period : Period) : bool :=
  (period_start period <=? period_end period) && String.eqb (period_coachId period) id.

(** The items collected so far for coach [id]. *)
Definition breakdownOf (id : string) (coachPayments : PaymentMap)
    : list PaymentBreakdownItem :=
  match map_get id coachPayments with
  | Some data => data_breakdown data
  | None => []
  end.

(** The history the storage gives for a student. *)
Definition historyOf (storage : IStorage) (id : string) : list CoachTransfer :=
  match getStudentTransferHistory storage id with
  | Resolved history => history
  | Rejected => []
  end.

(** The periods the loop builds for one entry of [allStudents]. *)
Definition entryPeriods (storage : IStorage) (cs ce : Date) (entry : Student * string)
    : list Period :=
  let '(student, currentCoachId) := entry in
  if workEnd ce student <? workStart cs student then []
  else studentPeriods cs ce student currentCoachId
         (historyOf storage (student_id student)).

(** The periods of all students of the roster, in the order of the loop. *)
Definition allPeriods (storage : IStorage) (cs ce : Date)
    (coaches : list CoachWithStudents) : list Period :=
  flat_map (entryPeriods storage cs ce) (allStudents coaches).

(** The summary emitted for a map entry. *)
Definition summaryOf (id : string) (data : CoachData) : CoachPaymentSummary :=
  {| coachId := id;
     coachName := data_coachName data;
     activeStudentCount := Z.of_nat (List.length (data_breakdown data));
     totalAmount := toFixed (data_totalAmount data) 2;
     breakdown := data_breakdown data |}.

Definition hasItems (l : list PaymentBreakdownItem) : bool :=
  (0 <? List.length l)%nat.

(* ================================================================== *)
(** ** Sample data *)
(* ================================================================== *)

Module Samples.

Definition noon : Z := 43200000.

Definition elif : Student :=
  {| student_id := "s-elif"; student_firstName := "Elif"; student_lastName := "Yilmaz";
     packageStartDate := iso 2024 1 1; packageEndDate := iso 2024 7 1; isActive := 1 |}.

Definition coachAyse (students : list Student) : CoachWithStudents :=
  {| coach_id := "c-ayse"; firstName := "Ayse"; lastName := "Kaya"; students := students |}.

Definition coachBurak (students : list Student) : CoachWithStudents :=
  {| coach_id := "c-burak"; firstName := "Burak"; lastName := "Demir"; students := students |}.

Definition defaultSettings : SystemSettings :=
  {| coachMonthlyFee := decimal 110000; globalPaymentDay := 28 |}.

Definition storageWith (settings : SystemSettings) (coaches : list CoachWithStudents)
    (history : list CoachTransfer) : IStorage :=
  {| getAllCoaches := Resolved coaches;
     getSettings := Resolved settings;
     getStudentTransferHistory := fun _ => Resolved history |}.

Definition transfer (old new : string) (date : IsoDate) : CoachTransfer :=
  {| studentId := "s-elif"; oldCoachId := old; newCoachId := new; transferDate := date |}.

(** Elif leaves Ayse for Burak on 5 April and returns on 15 April. *)
Definition awayAndBack : IStorage :=
  storageWith defaultSettings [coachAyse [elif]; coachBurak []]
    [ transfer "c-burak" "c-ayse" (iso 2024 4 15);
      transfer "c-ayse" "c-burak" (iso 2024 4 5) ].

(** Elif came to Ayse on 10 April from a coach who has since been
    archived and is no longer in the roster. *)
Definition fromArchivedCoach : IStorage :=
  storageWith defaultSettings [coachAyse [elif]; coachBurak []]
    [ transfer "c-cem" "c-ayse" (iso 2024 4 10) ].

(** Two transfers recorded for the same day, in the two orders in which
    a query ordered by date alone may return them. *)
Definition toBurak : CoachTransfer := transfer "c-ayse" "c-burak" (iso 2024 4 10).
Definition backToAyse : CoachTransfer := transfer "c-burak" "c-ayse" (iso 2024 4 10).

Definition sameDay (history : list CoachTransfer) : IStorage :=
  storageWith defaultSettings [coachAyse [elif]; coachBurak []] history.

Definition badPaymentDay : IStorage :=
  storageWith {| coachMonthlyFee := decimal 110000; globalPaymentDay := 45 |}
    [coachAyse [elif]] [].

Definition badMonthlyFee : IStorage :=
  storageWith {| coachMonthlyFee := decimal 0; globalPaymentDay := 28 |}
    [coachAyse [elif]] [].


(** The answer for [awayAndBack] in the cycle from 29 March to 28 April
    2024. *)
Definition ayseTwice : CoachPaymentSummary :=
  {| coachId := "c-ayse";
     coachName := "Ayse Kaya";
     activeStudentCount := 2;
     totalAmount := "770.00";
     breakdown :=
       [ {| item_studentId := "s-elif";
            studentName := "Elif Yilmaz";
            amount := "256.67";
            daysWorked := 7 |};
         {| item_studentId := "s-elif";
            studentName := "Elif Yilmaz";
            amount := "513.33";
            daysWorked := 14 |} ] |}.

Definition burakOnce : CoachPaymentSummary :=
  {| coachId := "c-burak";
     coachName := "Burak Demir";
     activeStudentCount := 1;
     totalAmount := "366.67";
     breakdown :=
       [ {| item_studentId := "s-elif";
            studentName := "Elif Yilmaz";
            amount := "366.67";
            daysWorked := 10 |} ] |}.

End Samples.

Import Samples.

(* ================================================================== *)
(** ** Further notions *)
(* ================================================================== *)

(** The amount a credited period adds to its coach's total, before any
    rounding. *)
Definition amountOf (monthlyFee : float) (period : Period) : float :=
  (monthlyFee / 30 * of_Z (periodDays period))%float.

(** The running total of coach [id]. *)
Definition totalOf (id : string) (coachPayments : PaymentMap) : float :=
  match map_get id coachPayments with
  | Some data => data_totalAmount data
  | None => 0%float
  end.

(** The display name of coach [id] in the map. *)
Definition nameOf (id : string) (coachPayments : PaymentMap) : option string :=
  match map_get id coachPayments with
  | Some data => Some (data_coachName data)
  | None => None
  end.

(** The items and the amounts the loop credits to coach [id], student by
    student and period by period. *)
Definition creditedItems (storage : IStorage) (monthlyFee : float) (cs ce : Date)
    (id : string) (entries : list (Student * string)) : list PaymentBreakdownItem :=
  flat_map
    (fun entry =>
       map (itemOf monthlyFee (fst entry))
           (filter (attributed id) (entryPeriods storage cs ce entry)))
    entries.

Definition creditedAmounts (storage : IStorage) (monthlyFee : float) (cs ce : Date)
    (id : string) (entries : list (Student * string)) : list float :=
  flat_map
    (fun entry =>
       map (amountOf monthlyFee)
           (filter (attributed id) (entryPeriods storage cs ce entry)))
    entries.

(** The days paid for student [sid], over all coaches of an answer. *)
Definition daysPaidFor (sid : string) (summaries : list CoachPaymentSummary) : Z :=
  sumZ (map daysWorked
          (filter (fun item => String.eqb (item_studentId item) sid)
                  (flat_map breakdown summaries))).

(** The coaches a history names. *)
Definition historyCoaches (history : list CoachTransfer) : list string :=
  flat_map (fun t => [oldCoachId t; newCoachId t]) history.

(** The sum of [f] over a list. *)
Definition sumOf {A : Type} (f : A -> Z) (l : list A) : Z := sumZ (map f l).

(* ================================================================== *)
(** ** The dashboard routes *)
(* ================================================================== *)

Module Dashboard.

(** A row of [storage.getAllStudents()] (storage lines 153-163: the
    active students, each with its coach), with the further column that
    the dashboard reads. *)
Record StudentWithCoach : Type := {
  swc_student : Student;
  packageMonths : Z
}.

(** *** GET /api/dashboard/stats *)

Record DashboardStats : Type := {
  activeCoaches : Z;
  activeStudents : Z;
  expectedMonthlyPayment : string;
  medkampusCommission : string
}.

(** Lines 505-526.  [length] and the package months are integers, held
    as Numbers. *)
Definition dashboardStats (coaches : list CoachWithStudents)
    (students : list StudentWithCoach) (settings : SystemSettings) : DashboardStats :=
  let activeCoaches := Z.of_nat (List.length coaches) in
  let activeStudents := Z.of_nat (List.length students) in
  let monthlyFee := parseFloat (coachMonthlyFee settings) in
  let expectedMonthlyPayment := toFixed (of_Z activeStudents * monthlyFee)%float 2 in
  let avgPackageMonths :=
    if 0 <? Z.of_nat (List.length students)
    then (fold_left (fun sum s => sum + of_Z (packageMonths s)) students 0
          / of_Z (Z.of_nat (List.length students)))%float
    else 3%float in
  let totalStudentRevenue := (of_Z activeStudents * monthlyFee * avgPackageMonths)%float in
  let totalCoachPayment := (of_Z activeStudents * monthlyFee * avgPackageMonths)%float in
  let commission := toFixed (totalStudentRevenue - totalCoachPayment)%float 2 in
  {| activeCoaches := activeCoaches;
     activeStudents := activeStudents;
     expectedMonthlyPayment := expectedMonthlyPayment;
     medkampusCommission := commission |}.

Inductive StatsResponse : Type :=
| statsJson (stats : DashboardStats)
| statsStatus500 (message : string).

(** Lines 499-531: [app.get("/api/dashboard/stats", ...)]. *)
Definition dashboardStatsRoute (storage : IStorage)
    (getAllStudents : Promise (list StudentWithCoach)) : StatsResponse :=
  match (let* coaches := getAllCoaches storage in
         let* students := getAllStudents in
         let* settings := getSettings storage in
         Resolved (dashboardStats coaches students settings)) with
  | Resolved stats => statsJson stats
  | Rejected => statsStatus500 "Failed to fetch dashboard stats"%string
  end.

(** *** GET /api/dashboard/renewal-alerts *)

Inductive AlertStatus : Type := expiring | expired.

Record RenewalAlert : Type := {
  alert_student : StudentWithCoach;
  daysRemaining : Z;
  status : AlertStatus
}.

(** Lines 539-555: the alert made of one student. *)
Definition renewalAlert (today : Date) (student : StudentWithCoach) : RenewalAlert :=
  let endDate := parseISO (packageEndDate (swc_student student)) in
  let daysRemaining := differenceInDays endDate today in
  {| alert_student := student;
     daysRemaining := daysRemaining;
     status := if daysRemaining <? 0 then expired else expiring |}.

(** Lines 539-560: [students.map(...)] and the filter. *)
Definition renewalAlerts (today : Date) (students : list StudentWithCoach)
    : list RenewalAlert :=
  let alerts := map (renewalAlert today) students in
  filter
    (fun a =>
       ((0 <=? daysRemaining a) && (daysRemaining a <=? 7)) || (daysRemaining a <? 0))
    alerts.

Inductive AlertsResponse : Type :=
| alertsJson (alerts : list RenewalAlert)
| alertsStatus500 (message : string).

(** Lines 534-567: [app.get("/api/dashboard/renewal-alerts", ...)], with
    [new Date()] returning [today]. *)
Definition renewalAlertsRoute (getAllStudents : Promise (list StudentWithCoach))
    (today : Date) : AlertsResponse :=
  match getAllStudents with
  | Resolved students => alertsJson (renewalAlerts today students)
  | Rejected => alertsStatus500 "Failed to fetch renewal alerts"%string
  end.

End Dashboard.

Import Dashboard.

(* ================================================================== *)
(** ** The payments page of the client *)
(* ================================================================== *)

Module PaymentsPage.

(** [settings?.globalPaymentDay || 28]: 28 while the settings are not
    loaded, and for a payment day of 0. *)
Definition paymentDay (settings : option SystemSettings) : Z :=
  match settings with
  | Some s => if globalPaymentDay s =? 0 then 28 else globalPaymentDay s
  | None => 28
  end.

(** The payment date the page shows and sends with the summaries it
    saves (the same statements twice, in [savePaymentsMutation] and in the
    body of the component); [currentDate] is the value of [new Date()]. *)
Definition nextPaymentDate (settings : option SystemSettings) (currentDate : Date)
    : Date :=
  let paymentDay := paymentDay settings in
  let nextPaymentDate :=
    newDate (getFullYear currentDate) (getMonth currentDate) paymentDay in
  if nextPaymentDate <? currentDate
  then newDate (getFullYear currentDate) (getMonth currentDate + 1) paymentDay
  else nextPaymentDate.

End PaymentsPage.

(* ================================================================== *)
(** ** The storage class: students and transfers *)
(* ================================================================== *)

(** date-fns [addMonths] and [format], with the two [Date] setters that
    [addMonths] calls and the [Date] constructor on a date text. *)
Module DateFns.

(** [d.setMonth(month, date)] and [d.setFullYear(year, month, date)]:
    the day is rebuilt from the fields given, the time of day is kept. *)
Definition setMonth (d : Date) (month date : Z) : Date :=
  MakeDate (MakeDay (YearFromTime d) month date) (TimeWithinDay d).

Definition setFullYear (d : Date) (year month date : Z) : Date :=
  MakeDate (MakeDay year month date) (TimeWithinDay d).

(** [new Date(text)] for the text [yyyy-MM-dd] of a calendar date.  A
    date-only text is read as UTC midnight; on the local time line of a
    server [offset] milliseconds ahead of UTC that instant is [offset]
    past the local midnight of the date. *)
Definition newDateOfText (offset : Z) (text : IsoDate) : Date :=
  parseISO text + offset.

(** [addMonths(date, amount)]. *)
Definition addMonths (date : Date) (amount : Z) : Date :=
  if amount =? 0 then date
  else
    let dayOfMonth := getDate date in
    let endOfDesiredMonth := setMonth date (getMonth date + amount + 1) 0 in
    let daysInMonth := getDate endOfDesiredMonth in
    if daysInMonth <=? dayOfMonth then endOfDesiredMonth
    else setFullYear date (getFullYear endOfDesiredMonth)
                     (getMonth endOfDesiredMonth) dayOfMonth.

(** [format(date, "yyyy-MM-dd")]: the local calendar date. *)
Definition format (date : Date) : IsoDate :=
  iso (getFullYear date) (getMonth date + 1) (getDate date).

End DateFns.

Module DatabaseStorage.

(** A row of the [students] table: the columns held by [Student] and the
    two further columns that the storage class reads and writes. *)
Record StudentRow : Type := {
  row_student : Student;
  row_coachId : string;
  row_packageMonths : Z
}.

(** [InsertStudent], and [Partial<InsertStudent>] with an absent field as
    [None]. *)
Record InsertStudent : Type := {
  new_firstName : string;
  new_lastName : string;
  new_coachId : string;
  new_packageMonths : Z;
  new_packageStartDate : IsoDate
}.

Record StudentPatch : Type := {
  patch_firstName : option string;
  patch_lastName : option string;
  patch_coachId : option string;
  patch_packageMonths : option Z;
  patch_packageStartDate : option IsoDate;
  patch_isActive : option Z
}.

(** The two tables, rows in the order of insertion. *)
Record Database : Type := {
  db_students : list StudentRow;
  db_coachTransfers : list CoachTransfer
}.

Definition row_id (r : StudentRow) : string := student_id (row_student r).

(** [db.query.students.findFirst({ where: eq(students.id, id) })]. *)
Definition findFirst (id : string) (db : Database) : option StudentRow :=
  find (fun r => String.eqb (row_id r) id) (db_students db).

(** [db.update(students).set(...).where(eq(students.id, id))]. *)
Definition updateWhere (id : string) (set : StudentRow -> StudentRow) (db : Database)
    : Database :=
  {| db_students :=
       map (fun r => if String.eqb (row_id r) id then set r else r) (db_students db);
     db_coachTransfers := db_coachTransfers db |}.

Definition orElse {A : Type} (given : option A) (existing : A) : A :=
  match given with
  | Some a => a
  | None => existing
  end.

Definition given {A : Type} (field : option A) : bool :=
  match field with
  | Some _ => true
  | None => false
  end.

(** Lines 177-179 and 204-212: the end date of a package. *)
Definition packageEndDateOf (offset : Z) (packageStartDate : IsoDate) (packageMonths : Z)
    : IsoDate :=
  let startDate := DateFns.newDateOfText offset packageStartDate in
  let endDate := DateFns.addMonths startDate packageMonths in
  DateFns.format endDate.

(** Lines 175-190.  [id] is the key the database generates for the row;
    the primary key refuses a key that the table already holds. *)
Definition createStudent (offset : Z) (id : string) (studentData : InsertStudent)
    (db : Database) : Promise (StudentRow * Database) :=
  let packageEndDate :=
    packageEndDateOf offset (new_packageStartDate studentData)
                     (new_packageMonths studentData) in
  let student :=
    {| row_student :=
         {| student_id := id;
            student_firstName := new_firstName studentData;
            student_lastName := new_lastName studentData;
            packageStartDate := new_packageStartDate studentData;
            packageEndDate := packageEndDate;
            isActive := 1 |};
       row_coachId := new_coachId studentData;
       row_packageMonths := new_packageMonths studentData |} in
  match findFirst id db with
  | Some _ => Rejected
  | None =>
      Resolved (student,
                {| db_students := db_students db ++ [student];
                   db_coachTransfers := db_coachTransfers db |})
  end.

(** Lines 215-223: the columns that [set] writes. *)
Definition patched (studentData : StudentPatch) (packageEndDate : option IsoDate)
    (r : StudentRow) : StudentRow :=
  {| row_student :=
       {| student_id := row_id r;
          student_firstName :=
            orElse (patch_firstName studentData) (student_firstName (row_student r));
          student_lastName :=
            orElse (patch_lastName studentData) (student_lastName (row_student r));
          packageStartDate :=
            orElse (patch_packageStartDate studentData) (packageStartDate (row_student r));
          packageEndDate := orElse packageEndDate (Routes.packageEndDate (row_student r));
          isActive := orElse (patch_isActive studentData) (isActive (row_student r)) |};
     row_coachId := orElse (patch_coachId studentData) (row_coachId r);
     row_packageMonths := orElse (patch_packageMonths studentData) (row_packageMonths r) |}.

(** Lines 192-225.  The result is the updated row, if there is one. *)
Definition updateStudent (offset : Z) (id : string) (studentData : StudentPatch)
    (db : Database) : Promise (option StudentRow * Database) :=
  let* packageEndDate :=
    if given (patch_packageStartDate studentData) || given (patch_packageMonths studentData)
    then
      match findFirst id db with
      | None => Rejected
      | Some existing =>
          let startDate :=
            orElse (patch_packageStartDate studentData)
                   (packageStartDate (row_student existing)) in
          let months :=
            orElse (patch_packageMonths studentData) (row_packageMonths existing) in
          Resolved (Some (packageEndDateOf offset startDate months))
      end
    else Resolved None in
  let db' := updateWhere id (patched studentData packageEndDate) db in
  Resolved (findFirst id db', db').

(** Lines 227-235. *)
Definition archiveStudent (id : string) (db : Database) : Promise (unit * Database) :=
  Resolved (tt,
            updateWhere id
              (fun r =>
                 {| row_student :=
                      {| student_id := row_id r;
                         student_firstName := student_firstName (row_student r);
                         student_lastName := student_lastName (row_student r);
                         packageStartDate := packageStartDate (row_student r);
                         packageEndDate := packageEndDate (row_student r);
                         isActive := 0 |};
                    row_coachId := row_coachId r;
                    row_packageMonths := row_packageMonths r |})
              db).

(** Lines 310-349. *)
Definition transferStudentCoach (studentId newCoachId : string) (transferDate : IsoDate)
    (db : Database) : Promise (CoachTransfer * Database) :=
  match findFirst studentId db with
  | None => Rejected
  | Some student =>
      let oldCoachId := row_coachId student in
      let transfer :=
        {| Routes.studentId := studentId;
           Routes.oldCoachId := oldCoachId;
           Routes.newCoachId := newCoachId;
           Routes.transferDate := transferDate |} in
      let db' :=
        {| db_students := db_students db;
           db_coachTransfers := db_coachTransfers db ++ [transfer] |} in
      Resolved (transfer,
                updateWhere studentId
                  (fun r =>
                     {| row_student := row_student r;
                        row_coachId := newCoachId;
                        row_packageMonths := row_packageMonths r |})
                  db')
  end.

(** The calls that write students and transfers, as the routes make
    them. *)
Inductive Call : Type :=
| CreateStudent (id : string) (studentData : InsertStudent)
| UpdateStudent (id : string) (studentData : StudentPatch)
| ArchiveStudent (id : string)
| TransferStudentCoach (studentId newCoachId : string) (transferDate : IsoDate).

Definition after {A : Type} (result : Promise (A * Database)) (db : Database)
    : Database :=
  match result with
  | Resolved (_, db') => db'
  | Rejected => db
  end.

(** The database after a call; a call that throws has written nothing. *)
Definition call (offset : Z) (db : Database) (c : Call) : Database :=
  match c with
  | CreateStudent id studentData => after (createStudent offset id studentData db) db
  | UpdateStudent id studentData => after (updateStudent offset id studentData db) db
  | ArchiveStudent id => after (archiveStudent id db) db
  | TransferStudentCoach studentId newCoachId transferDate =>
      after (transferStudentCoach studentId newCoachId transferDate db) db
  end.

Definition calls (offset : Z) (cs : list Call) (db : Database) : Database :=
  fold_left (call offset) cs db.

Definition empty : Database := {| db_students := []; db_coachTransfers := [] |}.

(** The transfers recorded for a student, oldest record first. *)
Definition transfersOf (id : string) (db : Database) : list CoachTransfer :=
  filter (fun t => String.eqb (Routes.studentId t) id) (db_coachTransfers db).

(** A call that sets the coach of a student without recording a
    transfer. *)
Definition setsCoach (c : Call) : bool :=
  match c with
  | UpdateStudent _ studentData => given (patch_coachId studentData)
  | _ => false
  end.

(** [links c ts c']: starting with coach [c], the transfers [ts] hand the
    student on from each coach to the next and leave it with [c']. *)
Fixpoint links (c : string) (ts : list CoachTransfer) (c' : string) : Prop :=
  match ts with
  | [] => c = c'
  | t :: rest => oldCoachId t = c /\ links (newCoachId t) rest c'
  end.

End DatabaseStorage.

(** The number of calendar days from the day of [today] to the day of
    [t]. *)
Definition calendarDaysUntil (t today : Date) : Z := Day t - Day today.

(* ================================================================== *)
(** ** Calendar facts *)
(* ================================================================== *)

Ltac divs := Z.div_mod_to_equations; lia.

Lemma month_cases (m : Z) : 0 <= m <= 11 ->
  m = 0 \/ m = 1 \/ m = 2 \/ m = 3 \/ m = 4 \/ m = 5 \/
  m = 6 \/ m = 7 \/ m = 8 \/ m = 9 \/ m = 10 \/ m = 11.
Proof. lia. Qed.

Ltac months H :=
  destruct (month_cases _ H) as [->|[->|[->|[->|[->|[->|[->|[->|[->|[->|[->| ->]]]]]]]]]]].

Ltac month_table := simpl (_ + 1) in *; cbv [monthStart] in *.

Section Calendar.

Lemma isLeapYear_cases (y : Z) :
  (isLeapYear y = true /\ y mod 4 = 0 /\ (y mod 100 <> 0 \/ y mod 400 = 0)) \/
  (isLeapYear y = false /\ (y mod 4 <> 0 \/ (y mod 100 = 0 /\ y mod 400 <> 0))).
Proof.
  unfold isLeapYear.
  destruct (Z.eqb_spec (y mod 4) 0), (Z.eqb_spec (y mod 100) 0),
    (Z.eqb_spec (y mod 400) 0); simpl; intuition.
Qed.

Lemma DayFromYear_succ (y : Z) : DayFromYear (y + 1) = DayFromYear y + DaysInYear y.
Proof.
  unfold DaysInYear, DayFromYear.
  destruct (isLeapYear_cases y) as [(-> & H4 & H)|(-> & H)]; divs.
Qed.

Lemma DaysInYear_bounds (y : Z) : 365 <= DaysInYear y <= 366.
Proof. unfold DaysInYear; destruct (isLeapYear y); lia. Qed.

Lemma DayFromYear_lt (y1 y2 : Z) : y1 < y2 -> DayFromYear y1 + 365 <= DayFromYear y2.
Proof. unfold DayFromYear; intros; divs. Qed.

Lemma DayFromYear_le (y1 y2 : Z) : y1 <= y2 -> DayFromYear y1 <= DayFromYear y2.
Proof. unfold DayFromYear; intros; divs. Qed.

Lemma yearSearch_spec (fuel : nat) : forall y day,
  DayFromYear y <= day < DayFromYear (y + Z.of_nat fuel) ->
  DayFromYear (yearSearch fuel y day) <= day < DayFromYear (yearSearch fuel y day + 1).
Proof.
  induction fuel as [|fuel IH]; intros y day H; simpl yearSearch.
  - replace (y + Z.of_nat 0) with y in H by lia. lia.
  - destruct (Z.leb_spec (DayFromYear (y + 1)) day) as [Hle|Hgt].
    + apply IH. replace (y + 1 + Z.of_nat fuel) with (y + Z.of_nat (S fuel)) by lia. lia.
    + lia.
Qed.

Lemma yearLo_ok (day : Z) : DayFromYear (yearLo day) <= day.
Proof.
  unfold yearLo, DayFromYear. destruct (Z.leb_spec 0 day); divs.
Qed.

Lemma yearHi_ok (day : Z) : day < DayFromYear (yearHi day).
Proof.
  unfold yearHi, DayFromYear. destruct (Z.leb_spec 0 day); divs.
Qed.

Lemma yearLo_le_yearHi (day : Z) : yearLo day <= yearHi day.
Proof.
  unfold yearLo, yearHi. destruct (Z.leb_spec 0 day); divs.
Qed.

Lemma YearFromDay_spec (day : Z) :
  DayFromYear (YearFromDay day) <= day < DayFromYear (YearFromDay day + 1).
Proof.
  unfold YearFromDay. apply yearSearch_spec.
  pose proof (yearLo_le_yearHi day).
  rewrite Z2Nat.id by lia.
  replace (yearLo day + (yearHi day - yearLo day)) with (yearHi day) by lia.
  split; [apply yearLo_ok | apply yearHi_ok].
Qed.

Lemma YearFromDay_unique (day y : Z) :
  DayFromYear y <= day < DayFromYear (y + 1) -> YearFromDay day = y.
Proof.
  intros H. pose proof (YearFromDay_spec day) as S.
  destruct (Z.lt_trichotomy (YearFromDay day) y) as [L|[E|G]]; [|exact E|].
  - pose proof (DayFromYear_le (YearFromDay day + 1) y ltac:(lia)). lia.
  - pose proof (DayFromYear_le (y + 1) (YearFromDay day) ltac:(lia)). lia.
Qed.

Lemma Day_MakeDate (day time : Z) :
  0 <= time < msPerDay -> Day (MakeDate day time) = day.
Proof. unfold Day, MakeDate, msPerDay; intros; divs. Qed.

Lemma TimeWithinDay_MakeDate (day time : Z) :
  0 <= time < msPerDay -> TimeWithinDay (MakeDate day time) = time.
Proof. unfold TimeWithinDay, MakeDate, msPerDay; intros; divs. Qed.

Lemma MakeDate_Day (t : Date) : MakeDate (Day t) (TimeWithinDay t) = t.
Proof. unfold Day, TimeWithinDay, MakeDate, msPerDay; divs. Qed.

Lemma TimeWithinDay_bounds (t : Date) : 0 <= TimeWithinDay t < msPerDay.
Proof. unfold TimeWithinDay, msPerDay; divs. Qed.

Lemma leapDay_bounds (y : Z) : 0 <= leapDay y <= 1.
Proof. unfold leapDay; destruct (isLeapYear y); lia. Qed.

Lemma DaysInYear_leapDay (y : Z) : DaysInYear y = 365 + leapDay y.
Proof. unfold DaysInYear, leapDay; destruct (isLeapYear y); lia. Qed.

Lemma monthOfYearDay_spec (leap d : Z) :
  0 <= leap <= 1 -> 0 <= d < 365 + leap ->
  0 <= monthOfYearDay leap d <= 11 /\
  monthStart leap (monthOfYearDay leap d) <= d
    < monthStart leap (monthOfYearDay leap d + 1).
Proof.
  intros Hl Hd. unfold monthOfYearDay.
  repeat match goal with
         | |- context [if ?a <? ?b then _ else _] => destruct (Z.ltb_spec a b)
         end; month_table; lia.
Qed.

Lemma monthOfYearDay_unique (leap d m : Z) :
  0 <= leap <= 1 -> 0 <= m <= 11 ->
  monthStart leap m <= d < monthStart leap (m + 1) ->
  monthOfYearDay leap d = m.
Proof.
  intros Hl Hm Hd. unfold monthOfYearDay.
  months Hm; month_table;
  repeat match goal with
         | |- context [if ?a <? ?b then _ else _] => destruct (Z.ltb_spec a b)
         end; lia.
Qed.

Lemma DaysInMonth_bounds (y m : Z) : 0 <= m <= 11 -> 28 <= DaysInMonth y m <= 31.
Proof.
  intros Hm. unfold DaysInMonth. fold (leapDay y).
  pose proof (leapDay_bounds y). months Hm; month_table; lia.
Qed.

Lemma monthStart_bounds (leap m : Z) :
  0 <= leap <= 1 -> 0 <= m <= 11 ->
  0 <= monthStart leap m /\ monthStart leap (m + 1) <= 365 + leap.
Proof. intros Hl Hm. months Hm; month_table; lia. Qed.

(** The fields read off a time value are a calendar date, and [MakeDay]
    of them is the day of that time value. *)
Lemma DayWithinYear_bounds (t : Date) :
  0 <= DayWithinYear t < 365 + leapDay (YearFromTime t).
Proof.
  unfold DayWithinYear, YearFromTime.
  pose proof (YearFromDay_spec (Day t)) as S.
  rewrite DayFromYear_succ, DaysInYear_leapDay in S. lia.
Qed.

Lemma fields_valid (t : Date) :
  0 <= MonthFromTime t <= 11 /\
  1 <= DateFromTime t <= DaysInMonth (YearFromTime t) (MonthFromTime t).
Proof.
  pose proof (DayWithinYear_bounds t) as B.
  pose proof (leapDay_bounds (YearFromTime t)) as L.
  pose proof (monthOfYearDay_spec _ _ L B) as (Hm & Hs).
  unfold DateFromTime, MonthFromTime, DaysInMonth, InLeapYear.
  fold (leapDay (YearFromTime t)). lia.
Qed.

Lemma MakeDay_valid_month (y m dt : Z) : 0 <= m <= 11 ->
  MakeDay y m dt = DayFromYear y + monthStart (leapDay y) m + dt - 1.
Proof.
  intros Hm. unfold MakeDay.
  replace (m / 12) with 0 by divs. replace (m mod 12) with m by divs.
  rewrite Z.add_0_r. reflexivity.
Qed.

Lemma MakeDay_fields (t : Date) (k : Z) :
  MakeDay (YearFromTime t) (MonthFromTime t) (DateFromTime t + k) = Day t + k.
Proof.
  pose proof (fields_valid t) as (Hm & _).
  rewrite MakeDay_valid_month by exact Hm.
  unfold DateFromTime, DayWithinYear, InLeapYear.
  fold (leapDay (YearFromTime t)). lia.
Qed.

(** [d.setDate(d.getDate() + k)] moves [d] by [k] days. *)
Lemma setDate_getDate (d : Date) (k : Z) :
  setDate d (getDate d + k) = d + k * msPerDay.
Proof.
  unfold setDate, getDate. rewrite MakeDay_fields.
  rewrite <- (MakeDate_Day d) at 3. unfold MakeDate. lia.
Qed.

(** The fields of the day [MakeDay] builds from a calendar date. *)
Lemma fields_of_MakeDay (y m dt time : Z) :
  0 <= m <= 11 -> 1 <= dt <= DaysInMonth y m -> 0 <= time < msPerDay ->
  let t := MakeDate (MakeDay y m dt) time in
  YearFromTime t = y /\ MonthFromTime t = m /\ DateFromTime t = dt.
Proof.
  intros Hm Hd Ht t.
  pose proof (leapDay_bounds y) as L.
  pose proof (monthStart_bounds _ _ L Hm) as (B0 & B1).
  assert (HD : Day t = DayFromYear y + monthStart (leapDay y) m + dt - 1).
  { unfold t. rewrite Day_MakeDate by exact Ht. apply MakeDay_valid_month, Hm. }
  unfold DaysInMonth in Hd. fold (leapDay y) in Hd.
  assert (HY : YearFromTime t = y).
  { unfold YearFromTime. apply YearFromDay_unique.
    rewrite DayFromYear_succ, DaysInYear_leapDay, HD. lia. }
  assert (HM : MonthFromTime t = m).
  { unfold MonthFromTime, InLeapYear, DayWithinYear. rewrite HY.
    fold (leapDay y). apply monthOfYearDay_unique; [exact L|exact Hm|lia]. }
  repeat split; [exact HY|exact HM|].
  unfold DateFromTime, InLeapYear, DayWithinYear. rewrite HM, HY.
  fold (leapDay y). lia.
Qed.

(** [MakeDay] carries months outside 0 to 11 over into the years. *)
Lemma MakeDay_normal (y m dt : Z) :
  MakeDay y m dt = MakeDay (y + m / 12) (m mod 12) dt.
Proof.
  unfold MakeDay.
  replace (m mod 12 / 12) with 0 by divs.
  replace ((m mod 12) mod 12) with (m mod 12) by divs.
  rewrite Z.add_0_r. reflexivity.
Qed.

(** Day 0 of the following month is the last day of the month. *)
Lemma MakeDay_day_zero (y m : Z) : 0 <= m <= 11 ->
  MakeDay y (m + 1) 0 = MakeDay y m (DaysInMonth y m).
Proof.
  intros Hm. rewrite (MakeDay_valid_month y m) by exact Hm.
  unfold DaysInMonth. fold (leapDay y).
  destruct (Z.eq_dec m 11) as [->|Hne].
  - rewrite MakeDay_normal. change ((11 + 1) / 12) with 1.
    change ((11 + 1) mod 12) with 0.
    rewrite MakeDay_valid_month by lia.
    rewrite DayFromYear_succ, DaysInYear_leapDay.
    pose proof (leapDay_bounds y). pose proof (leapDay_bounds (y + 1)).
    month_table. lia.
  - rewrite MakeDay_valid_month by lia. lia.
Qed.

End Calendar.

(* ================================================================== *)
(** ** The billing cycle *)
(* ================================================================== *)

Section Cycle.

Lemma msPerDay_pos : 0 <= 0 < msPerDay.
Proof. unfold msPerDay; lia. Qed.

Lemma newDate_year (y m dt : Z) : 100 <= y -> newDate y m dt = MakeDate (MakeDay y m dt) 0.
Proof.
  intros Hy. unfold newDate.
  destruct (Z.leb_spec y 99); [lia|]. rewrite andb_false_r. reflexivity.
Qed.

Lemma calculatePaymentDate_month (y m day : Z) :
  100 <= y -> 0 <= m <= 11 -> 1 <= day ->
  calculatePaymentDate y m day = clampedPaymentDate y m day.
Proof.
  intros Hy Hm Hd. unfold calculatePaymentDate, clampedPaymentDate.
  rewrite !newDate_year by exact Hy.
  pose proof (DaysInMonth_bounds y m Hm) as B.
  assert (L : getDate (MakeDate (MakeDay y (m + 1) 0) 0) = DaysInMonth y m).
  { rewrite MakeDay_day_zero by exact Hm.
    apply (fields_of_MakeDay y m (DaysInMonth y m) 0); [exact Hm|lia|apply msPerDay_pos]. }
  rewrite L.
  destruct (fields_of_MakeDay y m 1 0) as (FY & FM & FD);
    [exact Hm|lia|apply msPerDay_pos|].
  unfold setDate. rewrite FY, FM.
  rewrite TimeWithinDay_MakeDate by apply msPerDay_pos. reflexivity.
Qed.

Lemma calculatePaymentDate_december (y day : Z) :
  100 <= y -> 1 <= day ->
  calculatePaymentDate y 12 day = clampedPaymentDate (y + 1) 0 day.
Proof.
  intros Hy Hd.
  rewrite <- calculatePaymentDate_month by lia.
  unfold calculatePaymentDate. rewrite !newDate_year by lia.
  rewrite (MakeDay_normal y 12), (MakeDay_normal y (12 + 1)).
  reflexivity.
Qed.

Lemma clampedPaymentDate_fields (y m day : Z) :
  0 <= m <= 11 -> 1 <= day ->
  let t := clampedPaymentDate y m day in
  getFullYear t = y /\ getMonth t = m /\
  getDate t = Z.min day (DaysInMonth y m) /\ TimeWithinDay t = 0.
Proof.
  intros Hm Hd t. pose proof (DaysInMonth_bounds y m Hm) as B.
  destruct (fields_of_MakeDay y m (Z.min day (DaysInMonth y m)) 0) as (FY & FM & FD);
    [exact Hm|lia|apply msPerDay_pos|].
  repeat split; try assumption.
  unfold t, clampedPaymentDate. apply TimeWithinDay_MakeDate, msPerDay_pos.
Qed.

Lemma clampedPaymentDate_Day (y m day : Z) : 0 <= m <= 11 ->
  Day (clampedPaymentDate y m day) =
  DayFromYear y + monthStart (leapDay y) m + Z.min day (DaysInMonth y m) - 1.
Proof.
  intros Hm. unfold clampedPaymentDate.
  rewrite Day_MakeDate by apply msPerDay_pos.
  apply MakeDay_valid_month, Hm.
Qed.

Lemma clampedPaymentDate_midnight (y m day : Z) :
  clampedPaymentDate y m day = Day (clampedPaymentDate y m day) * msPerDay.
Proof.
  unfold clampedPaymentDate. rewrite Day_MakeDate by apply msPerDay_pos.
  unfold MakeDate. lia.
Qed.

(** From one month's payment date to the next there are 28 to 31 days. *)
Lemma clampedPaymentDate_step (y m day : Z) :
  0 <= m <= 11 -> 1 <= day <= 31 ->
  let '(py, pm) := previousMonth (y, m) in
  28 <= Day (clampedPaymentDate y m day) - Day (clampedPaymentDate py pm day) <= 31.
Proof.
  intros Hm Hd. unfold previousMonth.
  destruct (Z.eqb_spec m 0) as [->|Hne].
  - rewrite !clampedPaymentDate_Day by lia.
    pose proof (DayFromYear_succ (y - 1)) as S.
    rewrite DaysInYear_leapDay in S. replace (y - 1 + 1) with y in S by lia.
    pose proof (DaysInMonth_bounds y 0 ltac:(lia)).
    assert (DaysInMonth (y - 1) 11 = 31).
    { unfold DaysInMonth. change (11 + 1) with 12. cbv [monthStart]. lia. }
    cbv [monthStart]. lia.
  - rewrite !clampedPaymentDate_Day by lia.
    pose proof (DaysInMonth_bounds y (m - 1) ltac:(lia)).
    pose proof (DaysInMonth_bounds y m ltac:(lia)).
    assert (monthStart (leapDay y) m =
            monthStart (leapDay y) (m - 1) + DaysInMonth y (m - 1)).
    { unfold DaysInMonth. fold (leapDay y).
      replace (m - 1 + 1) with m by lia. lia. }
    lia.
Qed.

Lemma currentPaymentDate_spec (today : Date) (paymentDay : Z) :
  100 <= getFullYear today -> 1 <= paymentDay ->
  let y := getFullYear today in
  let m := getMonth today in
  currentPaymentDate today paymentDay =
  if clampedPaymentDate y m paymentDay <? today
  then (let '(ny, nm) := nextMonth (y, m) in clampedPaymentDate ny nm paymentDay)
  else clampedPaymentDate y m paymentDay.
Proof.
  intros Hy Hd y m. pose proof (fields_valid today) as (Hm & _).
  fold (getMonth today) in Hm. fold m in Hm.
  unfold currentPaymentDate. fold y m.
  rewrite (calculatePaymentDate_month y m) by assumption.
  destruct (clampedPaymentDate y m paymentDay <? today); [|reflexivity].
  unfold nextMonth. destruct (Z.eqb_spec m 11) as [->|Hne].
  - change (11 + 1) with 12. apply calculatePaymentDate_december; assumption.
  - apply calculatePaymentDate_month; [assumption|lia|assumption].
Qed.

Lemma nextMonth_valid (y m : Z) : 0 <= m <= 11 ->
  let '(ny, nm) := nextMonth (y, m) in 0 <= nm <= 11 /\ y <= ny.
Proof. intros Hm. unfold nextMonth. destruct (Z.eqb_spec m 11); lia. Qed.

Lemma previousMonth_valid (y m : Z) : 0 <= m <= 11 ->
  let '(py, pm) := previousMonth (y, m) in 0 <= pm <= 11 /\ y - 1 <= py.
Proof. intros Hm. unfold previousMonth. destruct (Z.eqb_spec m 0); lia. Qed.

Lemma prevPaymentDate_spec (today : Date) (paymentDay : Z) (ey em : Z) :
  100 < ey -> 0 <= em <= 11 -> 1 <= paymentDay ->
  currentPaymentDate today paymentDay = clampedPaymentDate ey em paymentDay ->
  prevPaymentDate today paymentDay =
  (let '(py, pm) := previousMonth (ey, em) in clampedPaymentDate py pm paymentDay).
Proof.
  intros Hy Hm Hd E. unfold prevPaymentDate. rewrite E.
  destruct (clampedPaymentDate_fields ey em paymentDay Hm Hd) as (FY & FM & _).
  rewrite FY, FM. unfold previousMonth.
  destruct (Z.eqb_spec em 0) as [->|Hne];
    apply calculatePaymentDate_month; lia.
Qed.

Lemma cycleEnd_eq (today : Date) (paymentDay : Z) :
  cycleEnd today paymentDay = currentPaymentDate today paymentDay.
Proof. reflexivity. Qed.

Lemma prevPaymentDate_of_cycleEnd (today : Date) (paymentDay : Z) (ey em : Z) :
  100 < ey -> 0 <= em <= 11 -> 1 <= paymentDay ->
  cycleEnd today paymentDay = clampedPaymentDate ey em paymentDay ->
  prevPaymentDate today paymentDay =
  (let '(py, pm) := previousMonth (ey, em) in clampedPaymentDate py pm paymentDay).
Proof.
  intros Hy Hm Hd E. rewrite cycleEnd_eq in E.
  exact (prevPaymentDate_spec today paymentDay ey em Hy Hm Hd E).
Qed.

Lemma differenceInDays_midnights (a b : Z) :
  differenceInDays (a * msPerDay) (b * msPerDay) = a - b.
Proof.
  unfold differenceInDays, msPerDay.
  replace (a * 86400000 - b * 86400000) with ((a - b) * 86400000) by lia.
  apply Z.quot_mul. lia.
Qed.

End Cycle.

(* ================================================================== *)
(** ** Periods of one student *)
(* ================================================================== *)

Section Periods.

Lemma midnight_eq (t : Date) : midnight t -> t = Day t * msPerDay.
Proof.
  unfold midnight. intros H. pose proof (MakeDate_Day t) as E.
  unfold MakeDate in E. lia.
Qed.

Lemma midnight_MakeDate (d : Z) : midnight (MakeDate d 0).
Proof. apply TimeWithinDay_MakeDate, msPerDay_pos. Qed.

Lemma midnight_parseISO (s : IsoDate) : midnight (parseISO s).
Proof. apply midnight_MakeDate. Qed.

Lemma midnight_shift (t k : Z) : midnight t -> midnight (t + k * msPerDay).
Proof. unfold midnight, TimeWithinDay, msPerDay. intros H. divs. Qed.

Lemma midnight_next (t : Z) : midnight t -> midnight (t + msPerDay).
Proof. unfold midnight, TimeWithinDay, msPerDay. intros H. divs. Qed.

Lemma midnight_setDate (d : Date) (dt : Z) : midnight d -> midnight (setDate d dt).
Proof.
  unfold midnight, setDate. intros ->. apply TimeWithinDay_MakeDate, msPerDay_pos.
Qed.

Lemma midnight_newDate (y m dt : Z) : midnight (newDate y m dt).
Proof. apply midnight_MakeDate. Qed.

Lemma midnight_calculatePaymentDate (y m day : Z) :
  midnight (calculatePaymentDate y m day).
Proof. unfold calculatePaymentDate. apply midnight_setDate, midnight_newDate. Qed.

Lemma midnight_cycleEnd (today : Date) (paymentDay : Z) :
  midnight (cycleEnd today paymentDay).
Proof.
  unfold cycleEnd, currentPaymentDate.
  destruct (_ <? _); apply midnight_calculatePaymentDate.
Qed.

Lemma midnight_cycleStart (today : Date) (paymentDay : Z) :
  midnight (cycleStart today paymentDay).
Proof.
  unfold cycleStart. apply midnight_setDate.
  unfold prevPaymentDate. apply midnight_calculatePaymentDate.
Qed.

Lemma midnight_workStart (cs : Date) (student : Student) :
  midnight cs -> midnight (workStart cs student).
Proof.
  intros H. unfold workStart. destruct (_ <? _); [apply midnight_parseISO|exact H].
Qed.

Lemma midnight_workEnd (ce : Date) (student : Student) :
  midnight ce -> midnight (workEnd ce student).
Proof.
  intros H. unfold workEnd. destruct (_ <? _); [apply midnight_parseISO|exact H].
Qed.

(** Two midnights that differ are a day or more apart. *)
Lemma midnight_lt (a b : Date) : midnight a -> midnight b -> a < b -> a + msPerDay <= b.
Proof.
  intros Ha Hb. rewrite (midnight_eq a Ha), (midnight_eq b Hb).
  unfold msPerDay. lia.
Qed.

Lemma dayBefore (d : Date) : setDate d (getDate d - 1) = d - msPerDay.
Proof.
  replace (getDate d - 1) with (getDate d + -1) by lia.
  rewrite setDate_getDate. lia.
Qed.

(** *** What a tiling gives *)

Lemma tiles_le (a b : Date) (ps : list Period) : tiles a b ps -> a <= b.
Proof.
  induction 1 as [a b c H|a e b c ps H M T IH]; [exact H|].
  unfold msPerDay in IH. lia.
Qed.

Lemma tiles_bounds (a b : Date) (ps : list Period) :
  tiles a b ps ->
  Forall (fun p => a <= period_start p /\ period_start p <= period_end p /\
                   period_end p <= b) ps.
Proof.
  induction 1 as [a b c H|a e b c ps H M T IH].
  - constructor; [simpl; lia|constructor].
  - pose proof (tiles_le _ _ _ T) as L.
    constructor; [simpl; unfold msPerDay in *; lia|].
    eapply Forall_impl; [|exact IH]. simpl. unfold msPerDay. intros p. lia.
Qed.



Lemma differenceInDays_midnight (a b : Date) :
  midnight a -> midnight b -> differenceInDays b a = Day b - Day a.
Proof.
  intros Ha Hb. rewrite (midnight_eq a Ha) at 1. rewrite (midnight_eq b Hb) at 1.
  apply differenceInDays_midnights.
Qed.

Lemma tiles_days (a b : Date) (ps : list Period) :
  tiles a b ps -> midnight a -> midnight b ->
  sumZ (map periodDays ps) = differenceInDays b a + 1.
Proof.
  induction 1 as [a b c H|a e b c ps H M T IH]; intros Ma Mb.
  - simpl. unfold periodDays. simpl. lia.
  - simpl. rewrite (IH (midnight_next e M) Mb). unfold periodDays. simpl.
    rewrite !differenceInDays_midnight;
      try assumption; try (apply (midnight_next e M)).
    replace (e + msPerDay) with (MakeDate (Day e + 1) 0)
      by (rewrite (midnight_eq e M) at 2; unfold MakeDate; lia).
    rewrite Day_MakeDate by apply msPerDay_pos. lia.
Qed.

(** *** The stable sort by a key *)

Section SortByKey.
Context {A : Type} (key : A -> Z).

Let byKey (a b : A) : Z := key a - key b.
Let keyLe (a b : A) : Prop := key a <= key b.

Lemma insertSorted_perm (x : A) (l : list A) :
  Permutation (x :: l) (insertSorted byKey x l).
Proof.
  induction l as [|y l IH]; simpl; [reflexivity|].
  destruct (byKey x y <=? 0); [reflexivity|].
  rewrite perm_swap. apply perm_skip, IH.
Qed.

Lemma sort_perm (l : list A) : Permutation l (sort byKey l).
Proof.
  induction l as [|x l IH]; simpl; [reflexivity|].
  rewrite <- insertSorted_perm. apply perm_skip, IH.
Qed.

Lemma insertSorted_sorted (x : A) (l : list A) :
  StronglySorted keyLe l -> StronglySorted keyLe (insertSorted byKey x l).
Proof.
  induction 1 as [|y l S IH F]; simpl.
  - repeat constructor.
  - unfold byKey at 1. destruct (Z.leb_spec (key x - key y) 0) as [L|G].
    + constructor; [constructor; assumption|].
      constructor; [unfold keyLe; lia|].
      eapply Forall_impl; [|exact F]. unfold keyLe. intros z. lia.
    + constructor; [exact IH|].
      rewrite <- insertSorted_perm. constructor; [unfold keyLe; lia|exact F].
Qed.

Lemma sort_sorted (l : list A) : StronglySorted keyLe (sort byKey l).
Proof.
  induction l as [|x l IH]; simpl; [constructor|].
  apply insertSorted_sorted, IH.
Qed.

(** Stability: elements of one key keep the order they came in. *)
Lemma insertSorted_same_key (k : Z) (x : A) (l : list A) :
  filter (fun a => key a =? k) (insertSorted byKey x l) =
  filter (fun a => key a =? k) (x :: l).
Proof.
  induction l as [|y l IH]; simpl; [reflexivity|].
  unfold byKey at 1. destruct (Z.leb_spec (key x - key y) 0) as [L|G].
  - reflexivity.
  - simpl. rewrite IH. simpl.
    destruct (Z.eqb_spec (key x) k), (Z.eqb_spec (key y) k); try reflexivity. lia.
Qed.

Lemma sort_stable (k : Z) (l : list A) :
  filter (fun a => key a =? k) (sort byKey l) = filter (fun a => key a =? k) l.
Proof.
  induction l as [|x l IH]; simpl; [reflexivity|].
  rewrite insertSorted_same_key. simpl. rewrite IH. reflexivity.
Qed.

(** Two lists in strictly increasing key order with the same elements
    are the same list. *)
Lemma strictly_sorted_unique (l l' : list A) :
  StronglySorted (fun a b => key a < key b) l ->
  StronglySorted (fun a b => key a < key b) l' ->
  Permutation l l' -> l = l'.
Proof.
  intros S. revert l'. induction S as [|x l S IH F]; intros l' S' P.
  - apply Permutation_nil in P. congruence.
  - destruct S' as [|x' l' S' F'].
    + apply Permutation_sym, Permutation_nil in P. discriminate.
    + assert (x = x').
      { assert (I : In x (x' :: l')) by (eapply Permutation_in; [exact P|left; reflexivity]).
        assert (I' : In x' (x :: l))
          by (eapply Permutation_in; [exact (Permutation_sym P)|left; reflexivity]).
        destruct I as [E|I]; [congruence|].
        destruct I' as [E|I']; [congruence|].
        rewrite Forall_forall in F, F'.
        specialize (F _ I'). specialize (F' _ I). lia. }
      subst x'. f_equal. apply IH; [exact S'|].
      eapply Permutation_cons_inv; exact P.
Qed.

Lemma sorted_distinct_strict (l : list A) :
  StronglySorted keyLe l -> NoDup (map key l) ->
  StronglySorted (fun a b => key a < key b) l.
Proof.
  induction 1 as [|x l S IH F]; intros N; [constructor|].
  simpl in N. inversion N as [|k ks Hnot N']; subst.
  constructor; [apply IH, N'|].
  rewrite Forall_forall in F |- *. intros y Hy.
  specialize (F y Hy). unfold keyLe in F.
  assert (key x <> key y) by (intros E; apply Hnot; rewrite E; apply in_map, Hy).
  lia.
Qed.

Lemma sort_of_distinct (l l' : list A) :
  Permutation l l' -> NoDup (map key l) -> sort byKey l = sort byKey l'.
Proof.
  intros P N.
  assert (N' : NoDup (map key l'))
    by (eapply Permutation_NoDup; [apply Permutation_map, P|exact N]).
  apply strictly_sorted_unique.
  - apply sorted_distinct_strict; [apply sort_sorted|].
    eapply Permutation_NoDup; [apply Permutation_map, sort_perm|exact N].
  - apply sorted_distinct_strict; [apply sort_sorted|].
    eapply Permutation_NoDup; [apply Permutation_map, sort_perm|exact N'].
  - rewrite <- (sort_perm l), <- (sort_perm l'). exact P.
Qed.
End SortByKey.

Lemma sortedTransfers_sorted (l : list CoachTransfer) :
  StronglySorted (fun a b => transferTime a <= transferTime b) (sortedTransfers l).
Proof. exact (sort_sorted transferTime l). Qed.

Lemma sortedTransfers_perm (l : list CoachTransfer) :
  Permutation l (sortedTransfers l).
Proof. exact (sort_perm transferTime l). Qed.

Lemma filter_StronglySorted {A : Type} (R : A -> A -> Prop) (f : A -> bool) (l : list A) :
  StronglySorted R l -> StronglySorted R (filter f l).
Proof.
  induction 1 as [|x l S IH F]; simpl; [constructor|].
  destruct (f x); [|exact IH].
  constructor; [exact IH|].
  rewrite Forall_forall in F |- *. intros y Hy.
  apply filter_In in Hy. apply F, Hy.
Qed.

(** *** The periods tile the work window *)

Lemma midnight_transferTime (t : CoachTransfer) : midnight (transferTime t).
Proof. apply midnight_parseISO. Qed.

Lemma middlePeriods_tiles (studentEnd we : Date) (rest : list CoachTransfer) :
  forall (first d : CoachTransfer),
  we <= studentEnd ->
  StronglySorted (fun a b => transferTime a <= transferTime b) (first :: rest) ->
  Forall (fun t => transferTime t <= we) (first :: rest) ->
  tiles (transferTime first) we
    (middlePeriods studentEnd (first :: rest) ++
     [ {| period_coachId := newCoachId (last (first :: rest) d);
          period_start := parseISO (transferDate (last (first :: rest) d));
          period_end := we |} ]).
Proof.
  induction rest as [|next rest IH]; intros first d Hse S F.
  - simpl. constructor. inversion F; assumption.
  - inversion S as [|? ? S' F']; subst. inversion F as [|? ? Hf Fn]; subst.
    specialize (IH next d Hse S' Fn).
    assert (Hnext : transferTime next <= we) by (inversion Fn; assumption).
    assert (Hle : transferTime first <= transferTime next) by (inversion F'; assumption).
    change (last (first :: next :: rest) d) with (last (next :: rest) d).
    change (middlePeriods studentEnd (first :: next :: rest)) with
      ((let currentTransferDate := transferTime first in
        let nextTransferDate := transferTime next in
        let dayBeforeNext := setDate nextTransferDate (getDate nextTransferDate - 1) in
        if (currentTransferDate <=? dayBeforeNext) && (currentTransferDate <=? studentEnd)
        then [ {| period_coachId := newCoachId first;
                  period_start := currentTransferDate;
                  period_end := if dayBeforeNext <? studentEnd
                                then dayBeforeNext else studentEnd |} ]
        else []) ++ middlePeriods studentEnd (next :: rest)).
    cbv zeta. rewrite dayBefore.
    pose proof (midnight_transferTime first) as Mf.
    pose proof (midnight_transferTime next) as Mn.
    destruct (Z.leb_spec (transferTime first) (transferTime next - msPerDay)) as [L|G].
    + destruct (Z.leb_spec (transferTime first) studentEnd) as [_|G]; [|lia].
      destruct (Z.ltb_spec (transferTime next - msPerDay) studentEnd) as [_|G];
        [|unfold msPerDay in G; lia].
      cbn [app]. apply tiles_cons.
      * exact L.
      * replace (transferTime next - msPerDay) with (transferTime next + (-1) * msPerDay)
          by lia.
        apply midnight_shift, Mn.
      * replace (transferTime next - msPerDay + msPerDay) with (transferTime next) by lia.
        exact IH.
    + cbn [app].
      assert (E : transferTime first = transferTime next).
      { destruct (Z.eq_dec (transferTime first) (transferTime next)) as [E|N]; [exact E|].
        pose proof (midnight_lt _ _ Mf Mn ltac:(lia)). lia. }
      rewrite E. exact IH.
Qed.

Lemma buildPeriods_tiles (c : string) (ws we studentEnd : Date) (rel : list CoachTransfer) :
  midnight ws -> ws <= we -> we <= studentEnd ->
  StronglySorted (fun a b => transferTime a <= transferTime b) rel ->
  Forall (fun t => ws <= transferTime t <= we) rel ->
  tiles ws we (buildPeriods c ws we studentEnd rel).
Proof.
  intros Mw Hw Hse S F. destruct rel as [|first rest].
  - simpl. constructor. exact Hw.
  - assert (Hf : ws <= transferTime first <= we) by (inversion F; assumption).
    assert (F' : Forall (fun t => transferTime t <= we) (first :: rest)).
    { eapply Forall_impl; [|exact F]. simpl. intros t. lia. }
    pose proof (middlePeriods_tiles studentEnd we rest first first Hse S F') as T.
    unfold buildPeriods. cbv zeta. rewrite dayBefore.
    fold (transferTime first). fold (transferTime (last (first :: rest) first)).
    assert (Hl : transferTime (last (first :: rest) first) <= we).
    { rewrite Forall_forall in F'. apply F'.
      destruct (exists_last (l := first :: rest) ltac:(discriminate)) as (l' & a & E).
      rewrite E, last_last. apply in_or_app. right. left. reflexivity. }
    destruct (Z.leb_spec (transferTime (last (first :: rest) first)) we) as [_|G]; [|lia].
    pose proof (midnight_transferTime first) as Mf.
    destruct (Z.ltb_spec ws (transferTime first)) as [L|G].
    + pose proof (midnight_lt _ _ Mw Mf L) as L'.
      destruct (Z.ltb_spec (transferTime first - msPerDay) we) as [_|G];
        [|unfold msPerDay in G; lia].
      cbn [app]. apply tiles_cons.
      * lia.
      * replace (transferTime first - msPerDay) with (transferTime first + (-1) * msPerDay)
          by lia.
        apply midnight_shift, Mf.
      * replace (transferTime first - msPerDay + msPerDay) with (transferTime first) by lia.
        exact T.
    + cbn [app]. replace ws with (transferTime first) by lia. exact T.
Qed.

Lemma workEnd_le_studentEnd (ce : Date) (student : Student) :
  workEnd ce student <= parseISO (packageEndDate student).
Proof. unfold workEnd. destruct (Z.ltb_spec (parseISO (packageEndDate student)) ce); lia. Qed.

Lemma relevantTransfers_sorted (l : list CoachTransfer) (ws we : Date) :
  StronglySorted (fun a b => transferTime a <= transferTime b)
    (relevantTransfers (sortedTransfers l) ws we).
Proof. apply filter_StronglySorted, sortedTransfers_sorted. Qed.

Lemma relevantTransfers_within (l : list CoachTransfer) (ws we : Date) :
  Forall (fun t => ws <= transferTime t <= we) (relevantTransfers l ws we).
Proof.
  rewrite Forall_forall. intros t Ht. apply filter_In in Ht. destruct Ht as (_ & H).
  cbv zeta in H. apply andb_true_iff in H. unfold transferTime. lia.
Qed.

(** The periods of a student active in the cycle tile the work window. *)
Lemma studentPeriods_tiles (cs ce : Date) (student : Student) (coach : string)
    (allTransfers : list CoachTransfer) :
  midnight cs -> midnight ce ->
  workStart cs student <= workEnd ce student ->
  tiles (workStart cs student) (workEnd ce student)
        (studentPeriods cs ce student coach allTransfers).
Proof.
  intros Ms Me Hw. unfold studentPeriods. cbv zeta.
  apply buildPeriods_tiles.
  - apply midnight_workStart, Ms.
  - exact Hw.
  - apply workEnd_le_studentEnd.
  - apply relevantTransfers_sorted.
  - apply relevantTransfers_within.
Qed.

(** *** Histories with no transfer or a single one *)


Lemma studentPeriods_single (cs ce : Date) (student : Student) (coach : string)
    (t : CoachTransfer) :
  workStart cs student < transferTime t -> transferTime t <= workEnd ce student ->
  studentPeriods cs ce student coach [t] =
  [ {| period_coachId := oldCoachId t;
       period_start := workStart cs student;
       period_end := transferTime t - msPerDay |};
    {| period_coachId := newCoachId t;
       period_start := transferTime t;
       period_end := workEnd ce student |} ].
Proof.
  intros Hs He. unfold studentPeriods. cbv zeta.
  change (sortedTransfers [t]) with [t].
  unfold coachAtWorkStart, relevantTransfers. cbn [filter]. cbv zeta.
  fold (transferTime t).
  destruct (Z.ltb_spec (transferTime t) (workStart cs student)) as [G|_]; [lia|].
  destruct (Z.leb_spec (workStart cs student) (transferTime t)) as [_|G]; [|lia].
  destruct (Z.leb_spec (transferTime t) (workEnd ce student)) as [_|G]; [|lia].
  cbn [andb rev app]. unfold buildPeriods. cbn [middlePeriods last app]. cbv zeta.
  fold (transferTime t). rewrite dayBefore.
  destruct (Z.ltb_spec (workStart cs student) (transferTime t)) as [_|G]; [|lia].
  destruct (Z.ltb_spec (transferTime t - msPerDay) (workEnd ce student)) as [_|G];
    [|unfold msPerDay in G; lia].
  destruct (Z.leb_spec (transferTime t) (workEnd ce student)) as [_|G]; [|lia].
  reflexivity.
Qed.

Lemma studentPeriods_single_at_start (cs ce : Date) (student : Student) (coach : string)
    (t : CoachTransfer) :
  transferTime t = workStart cs student -> transferTime t <= workEnd ce student ->
  studentPeriods cs ce student coach [t] =
  [ {| period_coachId := newCoachId t;
       period_start := workStart cs student;
       period_end := workEnd ce student |} ].
Proof.
  intros Hs He. unfold studentPeriods. cbv zeta.
  change (sortedTransfers [t]) with [t].
  unfold coachAtWorkStart, relevantTransfers. cbn [filter]. cbv zeta.
  fold (transferTime t). rewrite <- Hs.
  destruct (Z.ltb_spec (transferTime t) (transferTime t)) as [G|_]; [lia|].
  destruct (Z.leb_spec (transferTime t) (transferTime t)) as [_|G]; [|lia].
  destruct (Z.leb_spec (transferTime t) (workEnd ce student)) as [_|G]; [|lia].
  cbn [andb rev app]. unfold buildPeriods. cbn [middlePeriods last app]. cbv zeta.
  fold (transferTime t).
  destruct (Z.ltb_spec (transferTime t) (transferTime t)) as [G|_]; [lia|].
  destruct (Z.leb_spec (transferTime t) (workEnd ce student)) as [_|G]; [|lia].
  reflexivity.
Qed.

End Periods.

(* ================================================================== *)
(** ** Accumulating per coach *)
(* ================================================================== *)

Section Aggregation.

Lemma map_get_set_eq {V : Type} (k : string) (v : V) (m : list (string * V)) :
  map_get k (map_set k v m) = Some v.
Proof.
  induction m as [|[k' v'] m IH]; simpl.
  - rewrite String.eqb_refl. reflexivity.
  - destruct (String.eqb_spec k k') as [E|N]; simpl.
    + rewrite String.eqb_refl. reflexivity.
    + destruct (String.eqb_spec k k'); [contradiction|exact IH].
Qed.

Lemma map_get_set_ne {V : Type} (k k' : string) (v : V) (m : list (string * V)) :
  k <> k' -> map_get k (map_set k' v m) = map_get k m.
Proof.
  intros N. induction m as [|[k2 v2] m IH]; simpl.
  - destruct (String.eqb_spec k k'); [contradiction|reflexivity].
  - destruct (String.eqb_spec k' k2) as [E|N2]; simpl.
    + subst k2. destruct (String.eqb_spec k k'); [contradiction|reflexivity].
    + destruct (String.eqb_spec k k2); [reflexivity|exact IH].
Qed.

Lemma map_get_In {V : Type} (k : string) (m : list (string * V)) :
  map_get k m <> None <-> In k (map fst m).
Proof.
  induction m as [|[k' v'] m IH]; simpl.
  - tauto.
  - destruct (String.eqb_spec k k') as [E|N].
    + split; [auto|discriminate].
    + rewrite IH. split; [auto|intros [E|I]; [congruence|exact I]].
Qed.

Lemma map_set_keys_present {V : Type} (k : string) (v : V) (m : list (string * V)) :
  In k (map fst m) -> map fst (map_set k v m) = map fst m.
Proof.
  induction m as [|[k' v'] m IH]; simpl; [tauto|].
  intros H. destruct (String.eqb_spec k k') as [E|N]; simpl.
  - congruence.
  - f_equal. apply IH. destruct H; [congruence|assumption].
Qed.

Lemma map_set_keys_absent {V : Type} (k : string) (v : V) (m : list (string * V)) :
  ~ In k (map fst m) -> map fst (map_set k v m) = map fst m ++ [k].
Proof.
  induction m as [|[k' v'] m IH]; simpl; [reflexivity|].
  intros H. destruct (String.eqb_spec k k') as [E|N]; simpl.
  - exfalso. apply H. left. congruence.
  - f_equal. apply IH. tauto.
Qed.

(** *** Seeding the map *)

Lemma initCoachPayments_from (coaches : list CoachWithStudents) :
  forall m : PaymentMap,
  NoDup (map fst m ++ map coach_id coaches) ->
  (forall id, In id (map fst m) -> breakdownOf id m = []) ->
  let m' :=
    fold_left
      (fun coachPayments coach =>
         map_set (coach_id coach)
           {| data_coachName := (firstName coach ++ " " ++ lastName coach)%string;
              data_breakdown := [];
              data_totalAmount := 0 |}
           coachPayments)
      coaches m in
  map fst m' = map fst m ++ map coach_id coaches /\
  (forall id, breakdownOf id m' = []).
Proof.
  induction coaches as [|c coaches IH]; intros m N E; cbv zeta; cbn [fold_left map].
  - rewrite app_nil_r. split; [reflexivity|].
    intros id. unfold breakdownOf in *. specialize (E id).
    destruct (map_get id m) eqn:G; [|reflexivity].
    apply E, map_get_In. congruence.
  - cbn [map] in N.
    assert (Hc : ~ In (coach_id c) (map fst m)).
    { apply NoDup_remove_2 in N. intros I. apply N, in_or_app. left. exact I. }
    match goal with
    | |- context [fold_left ?f coaches ?m0] =>
        specialize (IH m0); cbv zeta in IH; destruct IH as (K & B)
    end.
    + rewrite map_set_keys_absent by exact Hc. rewrite <- app_assoc. exact N.
    + intros id _. unfold breakdownOf.
      destruct (String.eqb_spec id (coach_id c)) as [->|Hne].
      * rewrite map_get_set_eq. reflexivity.
      * rewrite map_get_set_ne by exact Hne.
        specialize (E id). unfold breakdownOf in E.
        destruct (map_get id m) eqn:G; [|reflexivity].
        apply E, map_get_In. congruence.
    + split; [|exact B].
      rewrite K, map_set_keys_absent by exact Hc. rewrite <- app_assoc. reflexivity.
Qed.

Lemma initCoachPayments_spec (coaches : list CoachWithStudents) :
  NoDup (map coach_id coaches) ->
  map fst (initCoachPayments coaches) = map coach_id coaches /\
  (forall id, breakdownOf id (initCoachPayments coaches) = []).
Proof.
  intros N. apply (initCoachPayments_from coaches []); [exact N|].
  intros id [].
Qed.

(** *** Crediting periods *)

Lemma creditPeriod_keys (fee : float) (student : Student) (m : PaymentMap) (p : Period) :
  map fst (creditPeriod fee student m p) = map fst m.
Proof.
  unfold creditPeriod. cbv zeta.
  destruct (period_start p <=? period_end p); [|reflexivity].
  destruct (map_get (period_coachId p) m) eqn:G; [|reflexivity].
  apply map_set_keys_present, map_get_In. congruence.
Qed.

Lemma creditPeriod_breakdown (fee : float) (student : Student) (m : PaymentMap)
    (p : Period) (id : string) :
  In id (map fst m) ->
  breakdownOf id (creditPeriod fee student m p) =
  breakdownOf id m ++ (if attributed id p then [itemOf fee student p] else []).
Proof.
  intros I. unfold creditPeriod, attributed. cbv zeta.
  destruct (period_start p <=? period_end p); simpl;
    [|rewrite app_nil_r; reflexivity].
  destruct (String.eqb_spec (period_coachId p) id) as [E|N].
  - subst id. unfold breakdownOf.
    destruct (map_get (period_coachId p) m) eqn:G.
    + rewrite map_get_set_eq. reflexivity.
    + exfalso. apply map_get_In in I. contradiction.
  - rewrite app_nil_r. unfold breakdownOf.
    destruct (map_get (period_coachId p) m) eqn:G; [|reflexivity].
    rewrite map_get_set_ne by congruence. reflexivity.
Qed.

Lemma creditPeriod_other (fee : float) (student : Student) (m : PaymentMap)
    (p : Period) (id : string) :
  period_coachId p <> id ->
  map_get id (creditPeriod fee student m p) = map_get id m.
Proof.
  intros N. unfold creditPeriod. cbv zeta.
  destruct (period_start p <=? period_end p); [|reflexivity].
  destruct (map_get (period_coachId p) m); [|reflexivity].
  apply map_get_set_ne. congruence.
Qed.

Lemma creditPeriod_absent (fee : float) (student : Student) (m : PaymentMap) (p : Period) :
  map_get (period_coachId p) m = None -> creditPeriod fee student m p = m.
Proof.
  intros G. unfold creditPeriod. cbv zeta. rewrite G.
  destruct (period_start p <=? period_end p); reflexivity.
Qed.

Lemma creditPeriods_keys (fee : float) (student : Student) (ps : list Period) :
  forall m, map fst (fold_left (creditPeriod fee student) ps m) = map fst m.
Proof.
  induction ps as [|p ps IH]; intros m; simpl; [reflexivity|].
  rewrite IH. apply creditPeriod_keys.
Qed.

Lemma creditPeriods_breakdown (fee : float) (student : Student) (id : string)
    (ps : list Period) :
  forall m, In id (map fst m) ->
  breakdownOf id (fold_left (creditPeriod fee student) ps m) =
  breakdownOf id m ++ map (itemOf fee student) (filter (attributed id) ps).
Proof.
  induction ps as [|p ps IH]; intros m I; simpl.
  - rewrite app_nil_r. reflexivity.
  - rewrite IH by (rewrite creditPeriod_keys; exact I).
    rewrite creditPeriod_breakdown by exact I.
    destruct (attributed id p); simpl.
    + rewrite <- app_assoc. reflexivity.
    + rewrite app_nil_r. reflexivity.
Qed.

(** *** The loop over the students *)

Lemma processStudent_spec (storage : IStorage) (fee : float) (cs ce : Date)
    (m m' : PaymentMap) (entry : Student * string) :
  processStudent storage fee cs ce m entry = Resolved m' ->
  m' = fold_left (creditPeriod fee (fst entry)) (entryPeriods storage cs ce entry) m.
Proof.
  destruct entry as [student coach]. unfold processStudent, entryPeriods, historyOf.
  destruct (workEnd ce student <? workStart cs student).
  - intros [= <-]. reflexivity.
  - destruct (getStudentTransferHistory storage (student_id student)); simpl.
    + intros [= <-]. reflexivity.
    + discriminate.
Qed.

Lemma processStudents_spec (storage : IStorage) (fee : float) (cs ce : Date)
    (entries : list (Student * string)) :
  forall m m',
  processStudents storage fee cs ce m entries = Resolved m' ->
  map fst m' = map fst m /\
  forall id, In id (map fst m) ->
    breakdownOf id m' =
    breakdownOf id m ++
    flat_map (fun entry =>
                map (itemOf fee (fst entry))
                    (filter (attributed id) (entryPeriods storage cs ce entry)))
             entries.
Proof.
  induction entries as [|entry entries IH]; intros m m' H; simpl in H.
  - injection H as <-. split; [reflexivity|].
    intros id _. simpl. rewrite app_nil_r. reflexivity.
  - destruct (processStudent storage fee cs ce m entry) as [m1|] eqn:P; [|discriminate].
    simpl in H. apply processStudent_spec in P. subst m1.
    destruct (IH _ _ H) as (K & B). rewrite creditPeriods_keys in K.
    split; [exact K|].
    intros id I. rewrite B by (rewrite creditPeriods_keys; exact I).
    rewrite creditPeriods_breakdown by exact I.
    simpl. rewrite <- app_assoc. reflexivity.
Qed.

Lemma processStudents_resolves (storage : IStorage) (fee : float) (cs ce : Date)
    (entries : list (Student * string)) :
  (forall id, getStudentTransferHistory storage id <> Rejected) ->
  forall m, exists m', processStudents storage fee cs ce m entries = Resolved m'.
Proof.
  intros H. induction entries as [|[student coach] entries IH]; intros m; simpl.
  - eexists; reflexivity.
  - unfold processStudent.
    destruct (workEnd ce student <? workStart cs student); simpl; [apply IH|].
    specialize (H (student_id student)).
    destruct (getStudentTransferHistory storage (student_id student));
      [simpl; apply IH|contradiction].
Qed.

(** *** Emitting the summaries *)

Lemma buildSummaries_In (m : PaymentMap) (s : CoachPaymentSummary) :
  In s (buildSummaries m) ->
  exists data, In (coachId s, data) m /\ s = summaryOf (coachId s) data /\
               data_breakdown data <> [].
Proof.
  unfold buildSummaries. rewrite in_flat_map.
  intros ([id data] & I & H).
  destruct (data_breakdown data) eqn:B; simpl in H; [contradiction|].
  destruct H as [<-|[]]. simpl. exists data.
  repeat split; [exact I| |].
  - unfold summaryOf. rewrite B. reflexivity.
  - rewrite B. discriminate.
Qed.

Lemma map_get_NoDup {V : Type} (k : string) (v : V) (m : list (string * V)) :
  NoDup (map fst m) -> In (k, v) m -> map_get k m = Some v.
Proof.
  induction m as [|[k' v'] m IH]; simpl; [tauto|].
  intros N [E|I].
  - injection E as -> ->. rewrite String.eqb_refl. reflexivity.
  - inversion N as [|? ? Hnot N']; subst.
    destruct (String.eqb_spec k k') as [->|_].
    + exfalso. apply Hnot. change k' with (fst (k', v)). apply in_map, I.
    + apply IH; assumption.
Qed.

Lemma filter_keys {V : Type} (f : string * V -> bool) (g : string -> bool)
    (m : list (string * V)) :
  (forall kv, In kv m -> f kv = g (fst kv)) ->
  map fst (filter f m) = filter g (map fst m).
Proof.
  induction m as [|kv m IH]; intros H; simpl; [reflexivity|].
  rewrite (H kv) by (left; reflexivity).
  destruct (g (fst kv)); simpl; rewrite IH; auto using in_cons.
Qed.

Lemma buildSummaries_filter (m : PaymentMap) :
  map coachId (buildSummaries m) =
  map fst (filter (fun kv => hasItems (data_breakdown (snd kv))) m).
Proof.
  unfold buildSummaries, hasItems.
  induction m as [|[k v] m IH]; [reflexivity|].
  cbn [flat_map filter snd]. rewrite map_app, IH.
  destruct (0 <? List.length (data_breakdown v))%nat; reflexivity.
Qed.

Lemma buildSummaries_ids (m : PaymentMap) :
  NoDup (map fst m) ->
  map coachId (buildSummaries m) =
  filter (fun id => hasItems (breakdownOf id m)) (map fst m).
Proof.
  intros N. rewrite buildSummaries_filter. apply filter_keys.
  intros [k v] I. simpl. unfold breakdownOf.
  rewrite (map_get_NoDup k v m N I). reflexivity.
Qed.

Lemma initCoachPayments_keys_incl (coaches : list CoachWithStudents) (id : string) :
  In id (map fst (initCoachPayments coaches)) -> In id (map coach_id coaches).
Proof.
  unfold initCoachPayments.
  assert (G : forall (m : PaymentMap),
             In id (map fst
               (fold_left
                  (fun coachPayments coach =>
                     map_set (coach_id coach)
                       {| data_coachName := (firstName coach ++ " " ++ lastName coach)%string;
                          data_breakdown := [];
                          data_totalAmount := 0 |}
                       coachPayments)
                  coaches m)) ->
             In id (map fst m) \/ In id (map coach_id coaches)).
  { induction coaches as [|c coaches IH]; intros m H; cbn [fold_left map] in *.
    - left. exact H.
    - destruct (IH _ H) as [I|I].
      + destruct (in_dec string_dec (coach_id c) (map fst m)) as [P|A].
        * rewrite map_set_keys_present in I by exact P. left. exact I.
        * rewrite map_set_keys_absent in I by exact A.
          apply in_app_or in I. destruct I as [I|[E|[]]]; [left; exact I|].
          right. left. exact E.
      + right. right. exact I. }
  intros H. destruct (G [] H) as [[]|I]. exact I.
Qed.

Lemma paymentsCurrentMonth_json (storage : IStorage) (today : Date)
    (summaries : list CoachPaymentSummary) :
  paymentsCurrentMonth storage today = json summaries <->
  computeSummaries storage today = Resolved summaries.
Proof.
  unfold paymentsCurrentMonth.
  destruct (computeSummaries storage today); split; intros H;
    try discriminate; injection H as ->; reflexivity.
Qed.

Lemma computeSummaries_spec (storage : IStorage) (today : Date)
    (coaches : list CoachWithStudents) (settings : SystemSettings)
    (summaries : list CoachPaymentSummary) :
  getAllCoaches storage = Resolved coaches ->
  getSettings storage = Resolved settings ->
  computeSummaries storage today = Resolved summaries ->
  exists coachPayments,
    processStudents storage (parseFloat (coachMonthlyFee settings))
      (cycleStart today (globalPaymentDay settings))
      (cycleEnd today (globalPaymentDay settings))
      (initCoachPayments coaches) (allStudents coaches) = Resolved coachPayments /\
    summaries = buildSummaries coachPayments.
Proof.
  intros HC HS. unfold computeSummaries. rewrite HC, HS. cbn [await].
  destruct (processStudents _ _ _ _ _ _) as [m|]; cbn [await]; [|discriminate].
  intros [= <-]. exists m. split; reflexivity.
Qed.

Lemma computeSummaries_resolves (storage : IStorage) (today : Date)
    (coaches : list CoachWithStudents) (settings : SystemSettings) :
  getAllCoaches storage = Resolved coaches ->
  getSettings storage = Resolved settings ->
  (forall id, getStudentTransferHistory storage id <> Rejected) ->
  exists summaries, paymentsCurrentMonth storage today = json summaries.
Proof.
  intros HC HS HT. unfold paymentsCurrentMonth, computeSummaries.
  rewrite HC, HS. cbn [await].
  destruct (processStudents_resolves storage (parseFloat (coachMonthlyFee settings))
              (cycleStart today (globalPaymentDay settings))
              (cycleEnd today (globalPaymentDay settings))
              (allStudents coaches) HT (initCoachPayments coaches)) as (m & E).
  rewrite E. cbn [await]. eexists. reflexivity.
Qed.

Lemma length_credited (fee : float) (id : string) (g : Student * string -> list Period)
    (entries : list (Student * string)) :
  List.length
    (flat_map (fun entry => map (itemOf fee (fst entry)) (filter (attributed id) (g entry)))
              entries) =
  List.length (filter (attributed id) (flat_map g entries)).
Proof.
  induction entries as [|e entries IH]; [reflexivity|].
  cbn [flat_map]. rewrite filter_app, !length_app, length_map, IH. reflexivity.
Qed.

Lemma hasItems_existsb {A : Type} (f : A -> bool) (l : list A) :
  (0 <? List.length (filter f l))%nat = existsb f l.
Proof.
  induction l as [|x l IH]; [reflexivity|].
  simpl. destruct (f x); [reflexivity|exact IH].
Qed.

(** What the route returns, read off the periods of all students. *)
Lemma summaries_spec (storage : IStorage) (today : Date)
    (coaches : list CoachWithStudents) (settings : SystemSettings)
    (summaries : list CoachPaymentSummary) :
  getAllCoaches storage = Resolved coaches ->
  getSettings storage = Resolved settings ->
  NoDup (map coach_id coaches) ->
  paymentsCurrentMonth storage today = json summaries ->
  let periods :=
    allPeriods storage (cycleStart today (globalPaymentDay settings))
      (cycleEnd today (globalPaymentDay settings)) coaches in
  map coachId summaries =
    filter (fun id => existsb (attributed id) periods) (map coach_id coaches) /\
  forall s, In s summaries ->
    activeStudentCount s = Z.of_nat (List.length (breakdown s)) /\
    breakdown s <> [] /\
    List.length (breakdown s) = List.length (filter (attributed (coachId s)) periods).
Proof.
  intros HC HS N HJ periods. apply paymentsCurrentMonth_json in HJ.
  destruct (computeSummaries_spec _ _ _ _ _ HC HS HJ) as (m & P & ->).
  destruct (initCoachPayments_spec coaches N) as (K0 & B0).
  destruct (processStudents_spec _ _ _ _ _ _ _ P) as (K & B).
  rewrite K0 in K.
  assert (L : forall id, In id (map coach_id coaches) ->
              List.length (breakdownOf id m) =
              List.length (filter (attributed id) periods)).
  { intros id I. rewrite B by (rewrite K0; exact I). rewrite B0. cbn [app].
    apply length_credited. }
  split.
  - rewrite buildSummaries_ids by (rewrite K; exact N). rewrite K.
    apply filter_ext_in. intros id I. unfold hasItems. rewrite (L id I).
    apply hasItems_existsb.
  - intros s I. destruct (buildSummaries_In m s I) as (data & Hin & E & NE).
    assert (G : map_get (coachId s) m = Some data)
      by (apply map_get_NoDup; [rewrite K; exact N|exact Hin]).
    assert (Hb : breakdown s = data_breakdown data) by (rewrite E; reflexivity).
    repeat split.
    + rewrite E. reflexivity.
    + rewrite Hb. exact NE.
    + rewrite Hb. rewrite <- L.
      * unfold breakdownOf. rewrite G. reflexivity.
      * rewrite <- K. change (coachId s) with (fst (coachId s, data)).
        apply in_map, Hin.
Qed.

End Aggregation.

(* ================================================================== *)
(** ** The cycle of an instant *)
(* ================================================================== *)

Lemma at_time_fields (s : IsoDate) (ms : Z) :
  1 <= isoMonth s <= 12 ->
  1 <= isoDay s <= DaysInMonth (isoYear s) (isoMonth s - 1) ->
  0 <= ms < msPerDay ->
  getFullYear (at_time s ms) = isoYear s /\
  getMonth (at_time s ms) = isoMonth s - 1 /\
  getDate (at_time s ms) = isoDay s.
Proof.
  intros Hm Hd Hms.
  replace (at_time s ms)
    with (MakeDate (MakeDay (isoYear s) (isoMonth s - 1) (isoDay s)) ms)
    by (unfold at_time, parseISO, MakeDate; lia).
  apply fields_of_MakeDay; [lia|assumption|assumption].
Qed.

Lemma cycle_resolution (today : Date) (paymentDay : Z) :
  100 < getFullYear today -> 1 <= paymentDay <= 31 ->
  let y := getFullYear today in
  let m := getMonth today in
  let candidate := clampedPaymentDate y m paymentDay in
  let '(ey, em) := if candidate <? today then nextMonth (y, m) else (y, m) in
  let '(py, pm) := previousMonth (ey, em) in
  cycleEnd today paymentDay = clampedPaymentDate ey em paymentDay /\
  getFullYear (cycleEnd today paymentDay) = ey /\
  getMonth (cycleEnd today paymentDay) = em /\
  getDate (cycleEnd today paymentDay) = Z.min paymentDay (DaysInMonth ey em) /\
  cycleStart today paymentDay = clampedPaymentDate py pm paymentDay + msPerDay /\
  cycleStart today paymentDay <= cycleEnd today paymentDay /\
  28 <= differenceInDays (cycleEnd today paymentDay) (cycleStart today paymentDay) + 1 <= 31.
Proof.
  intros Hy Hd y m candidate.
  pose proof (fields_valid today) as (Hm & _).
  fold (getMonth today) in Hm. fold m in Hm.
  pose proof (currentPaymentDate_spec today paymentDay ltac:(lia) ltac:(lia)) as E.
  cbv zeta in E. fold y m candidate in E.
  assert (V : let '(ey, em) := if candidate <? today then nextMonth (y, m) else (y, m) in
              currentPaymentDate today paymentDay = clampedPaymentDate ey em paymentDay /\
              0 <= em <= 11 /\ y <= ey).
  { destruct (candidate <? today).
    - pose proof (nextMonth_valid y m Hm) as N.
      destruct (nextMonth (y, m)) as [ny nm]. tauto.
    - repeat split; first [exact E | lia]. }
  destruct (if candidate <? today then nextMonth (y, m) else (y, m)) as [ey em].
  destruct V as (EE & Hem & Hey).
  pose proof (prevPaymentDate_spec today paymentDay ey em
                ltac:(unfold y in Hey; lia) Hem ltac:(lia) EE) as P.
  pose proof (clampedPaymentDate_step ey em paymentDay Hem Hd) as L.
  destruct (previousMonth (ey, em)) as [py pm].
  destruct (clampedPaymentDate_fields ey em paymentDay Hem ltac:(lia)) as (FY & FM & FD & _).
  assert (S : cycleStart today paymentDay = clampedPaymentDate py pm paymentDay + msPerDay).
  { unfold cycleStart. rewrite setDate_getDate, P. lia. }
  unfold cycleEnd. rewrite S, EE.
  repeat split; try assumption.
  - rewrite (clampedPaymentDate_midnight ey), (clampedPaymentDate_midnight py).
    unfold msPerDay. lia.
  - rewrite (clampedPaymentDate_midnight ey), (clampedPaymentDate_midnight py).
    replace (Day (clampedPaymentDate py pm paymentDay) * msPerDay + msPerDay)
      with ((Day (clampedPaymentDate py pm paymentDay) + 1) * msPerDay) by lia.
    rewrite differenceInDays_midnights. lia.
  - rewrite (clampedPaymentDate_midnight ey), (clampedPaymentDate_midnight py).
    replace (Day (clampedPaymentDate py pm paymentDay) * msPerDay + msPerDay)
      with ((Day (clampedPaymentDate py pm paymentDay) + 1) * msPerDay) by lia.
    rewrite differenceInDays_midnights. lia.
Qed.


(* ================================================================== *)
(** ** The claims *)
(* ================================================================== *)



(** C3 (as amended). For [today] = 2024-03-29, at any time of the day,
    and [paymentDay] = 28 the cycle ends on 2024-04-28 (the 28th of March
    has passed, so the payment date is next month's) and starts on
    2024-03-29, the day after the previous payment date 2024-03-28. *)
Theorem C3_cycle_after_payment_day (ms : Z) :
  0 <= ms < msPerDay ->
  cycleEnd (at_time (iso 2024 3 29) ms) 28 = parseISO (iso 2024 4 28) /\
  prevPaymentDate (at_time (iso 2024 3 29) ms) 28 = parseISO (iso 2024 3 28) /\
  cycleStart (at_time (iso 2024 3 29) ms) 28 = parseISO (iso 2024 3 29).
Proof.
  intros Hms.
  destruct (at_time_fields (iso 2024 3 29) ms) as (FY & FM & _);
    [simpl; lia|vm_compute; split; discriminate|exact Hms|].
  simpl in FY, FM.
  pose proof (cycle_resolution (at_time (iso 2024 3 29) ms) 28) as R.
  cbv zeta in R. rewrite FY, FM in R.
  change (clampedPaymentDate 2024 2 28) with 1711584000000 in R.
  change (at_time (iso 2024 3 29) ms) with (1711670400000 + ms) in R at 1.
  destruct (Z.ltb_spec 1711584000000 (1711670400000 + ms)) as [_|G];
    [|unfold msPerDay in Hms; lia].
  change (nextMonth (2024, 2)) with (2024, 3) in R.
  cbv beta iota in R. change (previousMonth (2024, 3)) with (2024, 2) in R.
  destruct (R ltac:(lia) ltac:(lia)) as (E & _ & _ & _ & S & _).
  split; [rewrite E; vm_compute; reflexivity|].
  split; [|rewrite S; vm_compute; reflexivity].
  pose proof (prevPaymentDate_of_cycleEnd (at_time (iso 2024 3 29) ms) 28 2024 3
                ltac:(lia) ltac:(lia) ltac:(lia) E) as P.
  change (previousMonth (2024, 3)) with (2024, 2) in P. cbv beta iota in P.
  rewrite P. vm_compute. reflexivity.
Qed.

Lemma C3_witness :
  cycleEnd (at_time (iso 2024 3 29) noon) 28 = parseISO (iso 2024 4 28) /\
  prevPaymentDate (at_time (iso 2024 3 29) noon) 28 = parseISO (iso 2024 3 28) /\
  cycleStart (at_time (iso 2024 3 29) noon) 28 = parseISO (iso 2024 3 29).
Proof.
  apply (C3_cycle_after_payment_day noon). unfold noon, msPerDay. lia.
Defined.

(** C3, as stated, fails at noon of 2024-03-29: the cycle does not start
    on 2024-03-28. *)
Lemma C3_counterexample :
  ~ (cycleEnd (at_time (iso 2024 3 29) noon) 28 = parseISO (iso 2024 4 28) /\
     cycleStart (at_time (iso 2024 3 29) noon) 28 = parseISO (iso 2024 3 28)).
Proof. vm_compute. intros (_ & H). discriminate H. Qed.



(** C6. The transfer date is the new coach's first day.  A student whose
    only transfer is dated [T], strictly inside the work window, gets two
    periods: the old coach's, from [workStart] to the day before [T], and
    the new coach's, from [T] to [workEnd]; their day counts add up to
    the inclusive day count of the work window.  When the only transfer
    is dated on [cycleStart] and the student is active from [cycleStart],
    the whole work window is one period of the new coach, and the loop
    over the periods leaves the entry of the old coach (a different
    coach) as it was: no item, no amount. *)
Theorem C6_transfer_date_is_new_coach_first_day :
  (forall (today : Date) (paymentDay : Z) (student : Student) (currentCoachId : string)
          (t : CoachTransfer),
     let cs := cycleStart today paymentDay in
     let ce := cycleEnd today paymentDay in
     let T := parseISO (transferDate t) in
     workStart cs student < T < workEnd ce student ->
     studentPeriods cs ce student currentCoachId [t] =
       [ {| period_coachId := oldCoachId t;
            period_start := workStart cs student;
            period_end := T - msPerDay |};
         {| period_coachId := newCoachId t;
            period_start := T;
            period_end := workEnd ce student |} ] /\
     sumZ (map periodDays (studentPeriods cs ce student currentCoachId [t])) =
       differenceInDays (workEnd ce student) (workStart cs student) + 1) /\
  (forall (today : Date) (paymentDay : Z) (student : Student) (currentCoachId : string)
          (t : CoachTransfer) (monthlyFee : float) (coachPayments : PaymentMap),
     let cs := cycleStart today paymentDay in
     let ce := cycleEnd today paymentDay in
     let periods := studentPeriods cs ce student currentCoachId [t] in
     parseISO (packageStartDate student) <= cs ->
     parseISO (transferDate t) = cs ->
     cs <= workEnd ce student ->
     oldCoachId t <> newCoachId t ->
     periods =
       [ {| period_coachId := newCoachId t;
            period_start := cs;
            period_end := workEnd ce student |} ] /\
     map_get (oldCoachId t)
       (fold_left (creditPeriod monthlyFee student) periods coachPayments) =
     map_get (oldCoachId t) coachPayments).
Proof.
  split.
  - intros today paymentDay student currentCoachId t cs ce T HT.
    assert (E : studentPeriods cs ce student currentCoachId [t] =
                [ {| period_coachId := oldCoachId t;
                     period_start := workStart cs student;
                     period_end := T - msPerDay |};
                  {| period_coachId := newCoachId t;
                     period_start := T;
                     period_end := workEnd ce student |} ]).
    { apply studentPeriods_single; unfold transferTime; fold T; lia. }
    split; [exact E|].
    apply (tiles_days (workStart cs student) (workEnd ce student)).
    + apply studentPeriods_tiles;
        [apply midnight_cycleStart|apply midnight_cycleEnd|lia].
    + apply midnight_workStart, midnight_cycleStart.
    + apply midnight_workEnd, midnight_cycleEnd.
  - intros today paymentDay student currentCoachId t monthlyFee coachPayments
           cs ce periods Hstart HT Hw Hne.
    assert (Ws : workStart cs student = cs).
    { unfold workStart.
      destruct (Z.ltb_spec cs (parseISO (packageStartDate student))); [lia|reflexivity]. }
    assert (E : periods =
                [ {| period_coachId := newCoachId t;
                     period_start := cs;
                     period_end := workEnd ce student |} ]).
    { unfold periods. rewrite <- Ws at 2.
      apply studentPeriods_single_at_start; unfold transferTime; lia. }
    split; [exact E|].
    rewrite E. cbn [fold_left]. apply creditPeriod_other. cbn. congruence.
Qed.

Lemma C6_witness :
  let cs := cycleStart (at_time (iso 2024 4 10) noon) 28 in
  let ce := cycleEnd (at_time (iso 2024 4 10) noon) 28 in
  studentPeriods cs ce elif "c-burak" [toBurak] =
    [ {| period_coachId := "c-ayse";
         period_start := parseISO (iso 2024 3 29);
         period_end := parseISO (iso 2024 4 9) |};
      {| period_coachId := "c-burak";
         period_start := parseISO (iso 2024 4 10);
         period_end := parseISO (iso 2024 4 28) |} ].
Proof.
  cbv zeta.
  refine (eq_trans
            (proj1 (proj1 C6_transfer_date_is_new_coach_first_day
                      (at_time (iso 2024 4 10) noon) 28 elif "c-burak"%string toBurak _)) _).
  - vm_compute. split; reflexivity.
  - vm_compute. reflexivity.
Defined.



(** C2 (as amended). A coach identifier that is absent from the roster
    does not abort the computation.  A period whose coach has no entry in
    the map is passed over: the map stays as it is, with no item and no
    amount added.  Whenever the storage reads succeed the route answers
    with summaries, and every summary is for a coach of the roster. *)
Theorem C2_absent_coach_is_passed_over :
  (forall (monthlyFee : float) (student : Student) (coachPayments : PaymentMap)
          (period : Period),
     map_get (period_coachId period) coachPayments = None ->
     creditPeriod monthlyFee student coachPayments period = coachPayments) /\
  (forall (storage : IStorage) (today : Date) (coaches : list CoachWithStudents)
          (settings : SystemSettings),
     getAllCoaches storage = Resolved coaches ->
     getSettings storage = Resolved settings ->
     (forall id, getStudentTransferHistory storage id <> Rejected) ->
     exists summaries,
       paymentsCurrentMonth storage today = json summaries /\
       Forall (fun s => In (coachId s) (map coach_id coaches)) summaries).
Proof.
  split.
  - intros monthlyFee student coachPayments period. apply creditPeriod_absent.
  - intros storage today coaches settings HC HS HT.
    destruct (computeSummaries_resolves storage today coaches settings HC HS HT)
      as (summaries & HJ).
    exists summaries. split; [exact HJ|].
    apply paymentsCurrentMonth_json in HJ.
    destruct (computeSummaries_spec _ _ _ _ _ HC HS HJ) as (m & P & ->).
    destruct (processStudents_spec _ _ _ _ _ _ _ P) as (K & _).
    rewrite Forall_forall. intros s I.
    destruct (buildSummaries_In m s I) as (data & Hin & _).
    apply initCoachPayments_keys_incl. rewrite <- K.
    change (coachId s) with (fst (coachId s, data)). apply in_map, Hin.
Qed.

Lemma C2_witness :
  exists summaries,
    paymentsCurrentMonth fromArchivedCoach (at_time (iso 2024 4 10) noon) = json summaries /\
    Forall (fun s => In (coachId s) ["c-ayse"; "c-burak"]%string) summaries.
Proof.
  refine (proj2 C2_absent_coach_is_passed_over fromArchivedCoach
            (at_time (iso 2024 4 10) noon) [coachAyse [elif]; coachBurak []]
            defaultSettings _ _ _).
  - reflexivity.
  - reflexivity.
  - intros id. discriminate.
Defined.

(** C2, as stated, fails: the only transfer of Elif names the archived
    coach c-cem as the old coach, c-cem is not in the roster, and the
    route answers with a summary for Ayse in which the days before the
    transfer are missing (19 of the 31 days of the cycle). *)
Lemma C2_counterexample :
  ~ In "c-cem"%string (map coach_id [coachAyse [elif]; coachBurak []]) /\
  getStudentTransferHistory fromArchivedCoach "s-elif" =
    Resolved [ transfer "c-cem" "c-ayse" (iso 2024 4 10) ] /\
  paymentsCurrentMonth fromArchivedCoach (at_time (iso 2024 4 10) noon) =
    json [ {| coachId := "c-ayse";
              coachName := "Ayse Kaya";
              activeStudentCount := 1;
              totalAmount := "696.67";
              breakdown :=
                [ {| item_studentId := "s-elif";
                     studentName := "Elif Yilmaz";
                     amount := "696.67";
                     daysWorked := 19 |} ] |} ].
Proof.
  split; [|split].
  - simpl. intros [H|[H|[]]]; discriminate H.
  - reflexivity.
  - vm_compute. reflexivity.
Qed.

(** C4 (as amended). The transfers are put in ascending order of
    [transferDate] by a stable sort: the sorted list has the same
    elements, and the transfers of one date keep the order in which the
    history was retrieved (no order of recording is consulted).  For two
    retrieval orders of the same transfers whose dates are pairwise
    different, the periods and the loop turn for the student are the
    same. *)
Theorem C4_order_of_same_date_transfers_is_retrieval_order :
  (forall allTransfers : list CoachTransfer,
     StronglySorted (fun a b => transferTime a <= transferTime b)
       (sortedTransfers allTransfers) /\
     Permutation allTransfers (sortedTransfers allTransfers) /\
     forall T : Date,
       filter (fun t => transferTime t =? T) (sortedTransfers allTransfers) =
       filter (fun t => transferTime t =? T) allTransfers) /\
  (forall (l l' : list CoachTransfer) (storage storage' : IStorage)
          (monthlyFee : float) (cs ce : Date) (coachPayments : PaymentMap)
          (student : Student) (currentCoachId : string),
     Permutation l l' ->
     NoDup (map transferTime l) ->
     getStudentTransferHistory storage (student_id student) = Resolved l ->
     getStudentTransferHistory storage' (student_id student) = Resolved l' ->
     studentPeriods cs ce student currentCoachId l =
     studentPeriods cs ce student currentCoachId l' /\
     processStudent storage monthlyFee cs ce coachPayments (student, currentCoachId) =
     processStudent storage' monthlyFee cs ce coachPayments (student, currentCoachId)).
Proof.
  split.
  - intros allTransfers. split; [apply sortedTransfers_sorted|].
    split; [apply sortedTransfers_perm|].
    intros T. exact (sort_stable transferTime T allTransfers).
  - intros l l' storage storage' monthlyFee cs ce coachPayments student currentCoachId
           P N H H'.
    assert (E : sortedTransfers l = sortedTransfers l')
      by exact (sort_of_distinct transferTime l l' P N).
    assert (EP : studentPeriods cs ce student currentCoachId l =
                 studentPeriods cs ce student currentCoachId l')
      by (unfold studentPeriods; rewrite E; reflexivity).
    split; [exact EP|].
    unfold processStudent. rewrite H, H'. cbn [await]. rewrite EP. reflexivity.
Qed.

Lemma C4_witness :
  studentPeriods (parseISO (iso 2024 3 29)) (parseISO (iso 2024 4 28)) elif "c-ayse"
    [ transfer "c-burak" "c-ayse" (iso 2024 4 15);
      transfer "c-ayse" "c-burak" (iso 2024 4 5) ] =
  studentPeriods (parseISO (iso 2024 3 29)) (parseISO (iso 2024 4 28)) elif "c-ayse"
    [ transfer "c-ayse" "c-burak" (iso 2024 4 5);
      transfer "c-burak" "c-ayse" (iso 2024 4 15) ].
Proof.
  refine (proj1 (proj2 C4_order_of_same_date_transfers_is_retrieval_order
                   [ transfer "c-burak" "c-ayse" (iso 2024 4 15);
                     transfer "c-ayse" "c-burak" (iso 2024 4 5) ]
                   [ transfer "c-ayse" "c-burak" (iso 2024 4 5);
                     transfer "c-burak" "c-ayse" (iso 2024 4 15) ]
                   awayAndBack
                   (storageWith defaultSettings [coachAyse [elif]; coachBurak []]
                      [ transfer "c-ayse" "c-burak" (iso 2024 4 5);
                        transfer "c-burak" "c-ayse" (iso 2024 4 15) ])
                   1100%float (parseISO (iso 2024 3 29)) (parseISO (iso 2024 4 28))
                   [] elif "c-ayse"%string _ _ _ _)).
  - apply perm_swap.
  - vm_compute. repeat constructor; simpl; intuition discriminate.
  - reflexivity.
  - reflexivity.
Defined.

(** C4, as stated, fails: two transfers of the same day, retrieved in
    the two orders a query ordered by date alone may give, lead to
    different periods and to different summaries; the first order pays
    the whole cycle to Ayse, the second to Burak. *)
Lemma C4_counterexample :
  Permutation [toBurak; backToAyse] [backToAyse; toBurak] /\
  studentPeriods (parseISO (iso 2024 3 29)) (parseISO (iso 2024 4 28)) elif "c-ayse"
    [toBurak; backToAyse] <>
  studentPeriods (parseISO (iso 2024 3 29)) (parseISO (iso 2024 4 28)) elif "c-ayse"
    [backToAyse; toBurak] /\
  map coachId
    match paymentsCurrentMonth (sameDay [toBurak; backToAyse])
            (at_time (iso 2024 4 10) noon) with
    | json summaries => summaries
    | status500 _ => []
    end = ["c-ayse"%string] /\
  map coachId
    match paymentsCurrentMonth (sameDay [backToAyse; toBurak])
            (at_time (iso 2024 4 10) noon) with
    | json summaries => summaries
    | status500 _ => []
    end = ["c-burak"%string].
Proof.
  split; [apply perm_swap|]. split; [|split].
  - vm_compute. discriminate.
  - vm_compute. reflexivity.
  - vm_compute. reflexivity.
Qed.

(** C5 (as amended). The route makes no check of [paymentDay] or of the
    monthly fee: whatever the settings, also with a payment day outside 1
    to 31 or a fee that is not positive, it answers with summaries
    whenever the storage reads succeed, and it fails only when a storage
    read fails. *)
Theorem C5_settings_are_not_checked
    (storage : IStorage) (today : Date) (coaches : list CoachWithStudents)
    (paymentDay : Z) (monthlyFee : Decimal) :
  getAllCoaches storage = Resolved coaches ->
  getSettings storage =
    Resolved {| coachMonthlyFee := monthlyFee; globalPaymentDay := paymentDay |} ->
  (forall id, getStudentTransferHistory storage id <> Rejected) ->
  exists summaries, paymentsCurrentMonth storage today = json summaries.
Proof.
  intros HC HS HT. eapply computeSummaries_resolves; eassumption.
Qed.

Lemma C5_witness :
  exists summaries,
    paymentsCurrentMonth badPaymentDay (at_time (iso 2024 4 10) noon) = json summaries.
Proof.
  refine (C5_settings_are_not_checked badPaymentDay (at_time (iso 2024 4 10) noon)
            [coachAyse [elif]] 45 (decimal 110000) _ _ _).
  - reflexivity.
  - reflexivity.
  - intros id. discriminate.
Defined.

(** C5, as stated, fails: with payment day 45 the route pays a cycle from
    1 to 30 April, and with a monthly fee of 0.00 it pays 0.00 for 31
    days; neither run ends in an error. *)
Lemma C5_counterexample :
  paymentsCurrentMonth badPaymentDay (at_time (iso 2024 4 10) noon) =
    json [ {| coachId := "c-ayse";
              coachName := "Ayse Kaya";
              activeStudentCount := 1;
              totalAmount := "1100.00";
              breakdown :=
                [ {| item_studentId := "s-elif";
                     studentName := "Elif Yilmaz";
                     amount := "1100.00";
                     daysWorked := 30 |} ] |} ] /\
  paymentsCurrentMonth badMonthlyFee (at_time (iso 2024 4 10) noon) =
    json [ {| coachId := "c-ayse";
              coachName := "Ayse Kaya";
              activeStudentCount := 1;
              totalAmount := "0.00";
              breakdown :=
                [ {| item_studentId := "s-elif";
                     studentName := "Elif Yilmaz";
                     amount := "0.00";
                     daysWorked := 31 |} ] |} ].
Proof. split; vm_compute; reflexivity. Qed.

(** C9. The coaches of the returned summaries are, in roster order,
    exactly the coaches of the roster to whom a period of some student is
    attributed in the cycle; a coach to whom no period is attributed is
    absent, and no returned summary has an empty breakdown. *)
Theorem C9_summaries_in_roster_order
    (storage : IStorage) (today : Date) (coaches : list CoachWithStudents)
    (settings : SystemSettings) (summaries : list CoachPaymentSummary) :
  getAllCoaches storage = Resolved coaches ->
  getSettings storage = Resolved settings ->
  NoDup (map coach_id coaches) ->
  paymentsCurrentMonth storage today = json summaries ->
  let periods :=
    allPeriods storage (cycleStart today (globalPaymentDay settings))
      (cycleEnd today (globalPaymentDay settings)) coaches in
  map coachId summaries =
    filter (fun id => existsb (attributed id) periods) (map coach_id coaches) /\
  (forall id, (forall p, In p periods -> period_coachId p <> id) ->
              ~ In id (map coachId summaries)) /\
  Forall (fun s => breakdown s <> []) summaries.
Proof.
  intros HC HS N HJ periods.
  destruct (summaries_spec storage today coaches settings summaries HC HS N HJ)
    as (Ids & Each).
  fold periods in Ids, Each.
  split; [exact Ids|]. split.
  - intros id Hno Hin. rewrite Ids in Hin. apply filter_In in Hin.
    destruct Hin as (_ & Hex). apply existsb_exists in Hex.
    destruct Hex as (p & Hp & Ha). unfold attributed in Ha.
    apply andb_true_iff in Ha. destruct Ha as (_ & Ha).
    apply String.eqb_eq in Ha. exact (Hno p Hp Ha).
  - rewrite Forall_forall. intros s I. apply (Each s I).
Qed.

Lemma C9_witness :
  map coachId
    [ {| coachId := "c-ayse";
         coachName := "Ayse Kaya";
         activeStudentCount := 1;
         totalAmount := "696.67";
         breakdown :=
           [ {| item_studentId := "s-elif";
                studentName := "Elif Yilmaz";
                amount := "696.67";
                daysWorked := 19 |} ] |} ] =
  filter
    (fun id =>
       existsb (attributed id)
         (allPeriods fromArchivedCoach
            (cycleStart (at_time (iso 2024 4 10) noon) 28)
            (cycleEnd (at_time (iso 2024 4 10) noon) 28)
            [coachAyse [elif]; coachBurak []]))
    ["c-ayse"; "c-burak"]%string.
Proof.
  refine (proj1 (C9_summaries_in_roster_order fromArchivedCoach
                   (at_time (iso 2024 4 10) noon) [coachAyse [elif]; coachBurak []]
                   defaultSettings _ _ _ _ _)).
  - reflexivity.
  - reflexivity.
  - repeat constructor; simpl; intuition discriminate.
  - vm_compute. reflexivity.
Defined.

(** C10. In every returned summary [activeStudentCount] is the number of
    breakdown items, one for each period credited to that coach, not the
    number of different students.  Elif, who leaves Ayse on 5 April and
    returns on 15 April, is counted twice in the summary of Ayse. *)
Theorem C10_activeStudentCount_counts_periods :
  (forall (storage : IStorage) (today : Date) (coaches : list CoachWithStudents)
          (settings : SystemSettings) (summaries : list CoachPaymentSummary)
          (s : CoachPaymentSummary),
     getAllCoaches storage = Resolved coaches ->
     getSettings storage = Resolved settings ->
     NoDup (map coach_id coaches) ->
     paymentsCurrentMonth storage today = json summaries ->
     In s summaries ->
     activeStudentCount s = Z.of_nat (List.length (breakdown s)) /\
     List.length (breakdown s) =
     List.length
       (filter (attributed (coachId s))
          (allPeriods storage (cycleStart today (globalPaymentDay settings))
             (cycleEnd today (globalPaymentDay settings)) coaches))) /\
  paymentsCurrentMonth awayAndBack (at_time (iso 2024 4 10) noon) =
    json [ayseTwice; burakOnce] /\
  activeStudentCount ayseTwice = 2 /\
  map item_studentId (breakdown ayseTwice) = ["s-elif"; "s-elif"]%string.
Proof.
  split.
  - intros storage today coaches settings summaries s HC HS N HJ I.
    destruct (summaries_spec storage today coaches settings summaries HC HS N HJ)
      as (_ & Each).
    destruct (Each s I) as (A & _ & L). split; [exact A|exact L].
  - split; [vm_compute; reflexivity|]. split; reflexivity.
Qed.

Lemma C10_witness :
  activeStudentCount ayseTwice = Z.of_nat (List.length (breakdown ayseTwice)) /\
  List.length (breakdown ayseTwice) =
  List.length
    (filter (attributed "c-ayse")
       (allPeriods awayAndBack (cycleStart (at_time (iso 2024 4 10) noon) 28)
          (cycleEnd (at_time (iso 2024 4 10) noon) 28)
          [coachAyse [elif]; coachBurak []])).
Proof.
  refine (proj1 C10_activeStudentCount_counts_periods awayAndBack
            (at_time (iso 2024 4 10) noon) [coachAyse [elif]; coachBurak []]
            defaultSettings [ayseTwice; burakOnce] ayseTwice _ _ _ _ _).
  - reflexivity.
  - reflexivity.
  - repeat constructor; simpl; intuition discriminate.
  - vm_compute. reflexivity.
  - left. reflexivity.
Defined.

(* ================================================================== *)
(** ** Further properties: the payment date and the cycle *)
(* ================================================================== *)

Section MoreCycle.






Lemma clampedPaymentDate_as_offset (y m day : Z) : 0 <= m <= 11 ->
  clampedPaymentDate y m day =
  MakeDate (MakeDay y m 1) 0 + (Z.min day (DaysInMonth y m) - 1) * msPerDay.
Proof.
  intros Hm. unfold clampedPaymentDate, MakeDate.
  rewrite !MakeDay_valid_month by exact Hm. lia.
Qed.

(** The first day of the month after [(y, m)] follows the last day of
    [(y, m)]. *)
Lemma first_of_next_month (y m : Z) : 0 <= m <= 11 ->
  let '(ny, nm) := nextMonth (y, m) in
  MakeDay ny nm 1 = MakeDay y m 1 + DaysInMonth y m.
Proof.
  intros Hm. unfold nextMonth.
  pose proof (MakeDay_day_zero y m Hm) as Z0.
  destruct (Z.eqb_spec m 11) as [->|Hne].
  - rewrite (MakeDay_normal y (11 + 1)) in Z0.
    change ((11 + 1) / 12) with 1 in Z0. change ((11 + 1) mod 12) with 0 in Z0.
    unfold MakeDay in *. lia.
  - unfold MakeDay in *. lia.
Qed.

Lemma previous_of_next (y m : Z) : 0 <= m <= 11 ->
  previousMonth (nextMonth (y, m)) = (y, m).
Proof.
  intros Hm. unfold nextMonth, previousMonth.
  destruct (Z.eqb_spec m 11) as [->|Hne].
  - simpl. f_equal. lia.
  - destruct (Z.eqb_spec (m + 1) 0); [lia|]. f_equal. lia.
Qed.

Lemma next_of_previous (y m : Z) : 0 <= m <= 11 ->
  nextMonth (previousMonth (y, m)) = (y, m).
Proof.
  intros Hm. unfold nextMonth, previousMonth.
  destruct (Z.eqb_spec m 0) as [->|Hne].
  - simpl. f_equal. lia.
  - destruct (Z.eqb_spec (m - 1) 11); [lia|]. f_equal. lia.
Qed.

(** An instant lies between the first midnight of its month and the
    first midnight of the month after. *)
Lemma instant_within_its_month (t : Date) :
  let y := getFullYear t in
  let m := getMonth t in
  MakeDate (MakeDay y m 1) 0 <= t < MakeDate (MakeDay y m 1 + DaysInMonth y m) 0.
Proof.
  intros y m. pose proof (fields_valid t) as (Hm & Hd).
  pose proof (MakeDay_fields t 0) as F. rewrite !Z.add_0_r in F.
  fold (getFullYear t) (getMonth t) in Hm, Hd, F. fold y m in Hm, Hd, F.
  assert (E : MakeDay y m 1 = MakeDay y m (DateFromTime t) - (DateFromTime t - 1))
    by (rewrite !MakeDay_valid_month by exact Hm; lia).
  rewrite E, F.
  pose proof (MakeDate_Day t) as R. pose proof (TimeWithinDay_bounds t) as B.
  unfold MakeDate, msPerDay in *. lia.
Qed.

End MoreCycle.

Lemma now_between_payment_dates (today : Date) (paymentDay : Z) :
  100 < getFullYear today -> 1 <= paymentDay <= 31 ->
  prevPaymentDate today paymentDay < today <= cycleEnd today paymentDay.
Proof.
  intros Hy Hd.
  pose proof (fields_valid today) as (Hm & _). fold (getMonth today) in Hm.
  pose proof (currentPaymentDate_spec today paymentDay ltac:(lia) ltac:(lia)) as E.
  cbv zeta in E. rewrite <- cycleEnd_eq in E.
  pose proof (instant_within_its_month today) as W. cbv zeta in W.
  destruct (Z.ltb_spec (clampedPaymentDate (getFullYear today) (getMonth today) paymentDay)
              today) as [Lt|Ge].
  - pose proof (nextMonth_valid (getFullYear today) (getMonth today) Hm) as NV.
    pose proof (first_of_next_month (getFullYear today) (getMonth today) Hm) as FN.
    pose proof (previous_of_next (getFullYear today) (getMonth today) Hm) as PN.
    destruct (nextMonth (getFullYear today, getMonth today)) as [ny nm].
    destruct NV as (Hnm & Hny).
    pose proof (prevPaymentDate_of_cycleEnd today paymentDay ny nm
                  ltac:(lia) Hnm ltac:(lia) E) as P.
    rewrite PN in P. rewrite P, E.
    rewrite (clampedPaymentDate_as_offset ny nm) by exact Hnm.
    pose proof (DaysInMonth_bounds ny nm Hnm).
    rewrite FN. unfold MakeDate, msPerDay in *. lia.
  - pose proof (prevPaymentDate_of_cycleEnd today paymentDay (getFullYear today)
                  (getMonth today) Hy Hm ltac:(lia) E) as P.
    pose proof (previousMonth_valid (getFullYear today) (getMonth today) Hm) as PV.
    pose proof (next_of_previous (getFullYear today) (getMonth today) Hm) as NP.
    destruct (previousMonth (getFullYear today, getMonth today)) as [py pm].
    destruct PV as (Hpm & Hpy).
    pose proof (first_of_next_month py pm Hpm) as FN. rewrite NP in FN.
    rewrite P, E.
    rewrite (clampedPaymentDate_as_offset py pm) by exact Hpm.
    pose proof (DaysInMonth_bounds py pm Hpm).
    unfold MakeDate, msPerDay in *. lia.
Qed.

(** X1. The payment dates around now.  For every instant [today] (year
    after 100) and payment day from 1 to 31, the previous payment date is
    before [today] and the cycle end is not before it; the cycle has
    started at [today] unless [today] falls on the previous payment day
    itself, after its midnight, in which case the cycle starts the next
    midnight. *)
Theorem X1_now_between_payment_dates (today : Date) (paymentDay : Z) :
  100 < getFullYear today -> 1 <= paymentDay <= 31 ->
  prevPaymentDate today paymentDay < today <= cycleEnd today paymentDay /\
  (today < cycleStart today paymentDay <->
   Day today = Day (prevPaymentDate today paymentDay)).
Proof.
  intros Hy Hd.
  pose proof (now_between_payment_dates today paymentDay Hy Hd) as B.
  split; [exact B|].
  assert (S : cycleStart today paymentDay = prevPaymentDate today paymentDay + msPerDay).
  { unfold cycleStart. rewrite setDate_getDate. lia. }
  assert (M : midnight (prevPaymentDate today paymentDay)).
  { unfold prevPaymentDate. apply midnight_calculatePaymentDate. }
  pose proof (midnight_eq _ M) as EM. rewrite S.
  pose proof (MakeDate_Day today) as R. pose proof (TimeWithinDay_bounds today) as T.
  unfold MakeDate, msPerDay in *. split; intros H; lia.
Qed.

Lemma X1_witness :
  prevPaymentDate (at_time (iso 2024 3 28) noon) 28
    < at_time (iso 2024 3 28) noon
    <= cycleEnd (at_time (iso 2024 3 28) noon) 28 /\
  (at_time (iso 2024 3 28) noon < cycleStart (at_time (iso 2024 3 28) noon) 28 <->
   Day (at_time (iso 2024 3 28) noon) =
   Day (prevPaymentDate (at_time (iso 2024 3 28) noon) 28)).
Proof.
  apply (X1_now_between_payment_dates (at_time (iso 2024 3 28) noon) 28).
  - vm_compute. reflexivity.
  - lia.
Defined.



(* ================================================================== *)
(** ** Further properties: what the route returns and when it fails *)
(* ================================================================== *)

Section MoreAggregation.

Lemma creditPeriod_total (fee : float) (student : Student) (m : PaymentMap)
    (p : Period) (id : string) :
  In id (map fst m) ->
  totalOf id (creditPeriod fee student m p) =
  if attributed id p then (totalOf id m + amountOf fee p)%float else totalOf id m.
Proof.
  intros I. unfold creditPeriod, attributed. cbv zeta.
  destruct (period_start p <=? period_end p); cbn [andb]; [|reflexivity].
  destruct (String.eqb_spec (period_coachId p) id) as [E|N].
  - subst id. unfold totalOf.
    destruct (map_get (period_coachId p) m) eqn:G.
    + rewrite map_get_set_eq. reflexivity.
    + exfalso. apply map_get_In in I. contradiction.
  - unfold totalOf.
    destruct (map_get (period_coachId p) m) eqn:G; [|reflexivity].
    rewrite map_get_set_ne by congruence. reflexivity.
Qed.

Lemma creditPeriod_name (fee : float) (student : Student) (m : PaymentMap)
    (p : Period) (id : string) :
  nameOf id (creditPeriod fee student m p) = nameOf id m.
Proof.
  unfold creditPeriod. cbv zeta.
  destruct (period_start p <=? period_end p); [|reflexivity].
  destruct (map_get (period_coachId p) m) eqn:G; [|reflexivity].
  unfold nameOf. destruct (String.eqb_spec id (period_coachId p)) as [->|N].
  - rewrite map_get_set_eq, G. reflexivity.
  - rewrite map_get_set_ne by exact N. reflexivity.
Qed.

Lemma creditPeriods_total (fee : float) (student : Student) (id : string)
    (ps : list Period) :
  forall m, In id (map fst m) ->
  totalOf id (fold_left (creditPeriod fee student) ps m) =
  fold_left PrimFloat.add (map (amountOf fee) (filter (attributed id) ps)) (totalOf id m).
Proof.
  induction ps as [|p ps IH]; intros m I; cbn [fold_left filter map]; [reflexivity|].
  rewrite IH by (rewrite creditPeriod_keys; exact I).
  rewrite creditPeriod_total by exact I.
  destruct (attributed id p); reflexivity.
Qed.

Lemma creditPeriods_name (fee : float) (student : Student) (id : string)
    (ps : list Period) :
  forall m, nameOf id (fold_left (creditPeriod fee student) ps m) = nameOf id m.
Proof.
  induction ps as [|p ps IH]; intros m; cbn [fold_left]; [reflexivity|].
  rewrite IH. apply creditPeriod_name.
Qed.

Lemma processStudents_totals (storage : IStorage) (fee : float) (cs ce : Date)
    (entries : list (Student * string)) :
  forall m m',
  processStudents storage fee cs ce m entries = Resolved m' ->
  forall id,
    nameOf id m' = nameOf id m /\
    (In id (map fst m) ->
     totalOf id m' =
     fold_left PrimFloat.add (creditedAmounts storage fee cs ce id entries) (totalOf id m)).
Proof.
  induction entries as [|entry entries IH]; intros m m' H id; simpl in H.
  - injection H as <-. split; [reflexivity|]. intros _. reflexivity.
  - destruct (processStudent storage fee cs ce m entry) as [m1|] eqn:P; [|discriminate].
    simpl in H. apply processStudent_spec in P. subst m1.
    destruct (IH _ _ H id) as (Nm & T). split.
    + rewrite Nm. apply creditPeriods_name.
    + intros I. rewrite T by (rewrite creditPeriods_keys; exact I).
      rewrite creditPeriods_total by exact I.
      unfold creditedAmounts. cbn [flat_map]. rewrite fold_left_app. reflexivity.
Qed.


Lemma initCoachPayments_names (coaches : list CoachWithStudents) (id name : string) :
  nameOf id (initCoachPayments coaches) = Some name ->
  exists coach, In coach coaches /\ coach_id coach = id /\
                name = (firstName coach ++ " " ++ lastName coach)%string.
Proof.
  unfold initCoachPayments.
  assert (G : forall (m : PaymentMap),
             nameOf id
               (fold_left
                  (fun coachPayments coach =>
                     map_set (coach_id coach)
                       {| data_coachName := (firstName coach ++ " " ++ lastName coach)%string;
                          data_breakdown := [];
                          data_totalAmount := 0 |}
                       coachPayments)
                  coaches m) = Some name ->
             nameOf id m = Some name \/
             exists coach, In coach coaches /\ coach_id coach = id /\
                           name = (firstName coach ++ " " ++ lastName coach)%string).
  { induction coaches as [|c coaches IH]; intros m H; cbn [fold_left] in H.
    - left. exact H.
    - destruct (IH _ H) as [N|(coach & I & E & Nm)].
      + unfold nameOf in N. destruct (String.eqb_spec id (coach_id c)) as [->|Hne].
        * rewrite map_get_set_eq in N. injection N as <-.
          right. exists c. repeat split. left. reflexivity.
        * rewrite map_get_set_ne in N by exact Hne. left. exact N.
      + right. exists coach. repeat split; [right; exact I|exact E|exact Nm]. }
  intros H. destruct (G [] H) as [N|R]; [discriminate N|exact R].
Qed.

Lemma initCoachPayments_totals (coaches : list CoachWithStudents) (id : string) :
  totalOf id (initCoachPayments coaches) = 0%float.
Proof.
  unfold initCoachPayments.
  assert (G : forall (m : PaymentMap),
             totalOf id m = 0%float ->
             totalOf id
               (fold_left
                  (fun coachPayments coach =>
                     map_set (coach_id coach)
                       {| data_coachName := (firstName coach ++ " " ++ lastName coach)%string;
                          data_breakdown := [];
                          data_totalAmount := 0 |}
                       coachPayments)
                  coaches m) = 0%float).
  { induction coaches as [|c coaches IH]; intros m H; cbn [fold_left]; [exact H|].
    apply IH. unfold totalOf in *.
    destruct (String.eqb_spec id (coach_id c)) as [->|Hne].
    - rewrite map_get_set_eq. reflexivity.
    - rewrite map_get_set_ne by exact Hne. exact H. }
  apply G. reflexivity.
Qed.

End MoreAggregation.

(** The map at the end of the loop, for an answer with summaries. *)
Lemma final_coachPayments (storage : IStorage) (today : Date)
    (coaches : list CoachWithStudents) (settings : SystemSettings)
    (summaries : list CoachPaymentSummary) :
  getAllCoaches storage = Resolved coaches ->
  getSettings storage = Resolved settings ->
  NoDup (map coach_id coaches) ->
  paymentsCurrentMonth storage today = json summaries ->
  let fee := parseFloat (coachMonthlyFee settings) in
  let cs := cycleStart today (globalPaymentDay settings) in
  let ce := cycleEnd today (globalPaymentDay settings) in
  exists coachPayments : PaymentMap,
    summaries = buildSummaries coachPayments /\
    map fst coachPayments = map coach_id coaches /\
    forall id, In id (map coach_id coaches) ->
      breakdownOf id coachPayments =
        creditedItems storage fee cs ce id (allStudents coaches) /\
      totalOf id coachPayments =
        fold_left PrimFloat.add
          (creditedAmounts storage fee cs ce id (allStudents coaches)) 0%float /\
      nameOf id coachPayments = nameOf id (initCoachPayments coaches).
Proof.
  intros HC HS N HJ fee cs ce. apply paymentsCurrentMonth_json in HJ.
  destruct (computeSummaries_spec _ _ _ _ _ HC HS HJ) as (m & P & ->).
  destruct (initCoachPayments_spec coaches N) as (K0 & B0).
  destruct (processStudents_spec _ _ _ _ _ _ _ P) as (K & B).
  pose proof (processStudents_totals _ _ _ _ _ _ _ P) as T.
  exists m. split; [reflexivity|]. split; [rewrite K; exact K0|].
  intros id I. rewrite <- K0 in I. split; [|split].
  - rewrite (B id I), B0. reflexivity.
  - rewrite (proj2 (T id) I), initCoachPayments_totals. reflexivity.
  - apply (T id).
Qed.


(** X4. What a summary holds.  For a roster with distinct coach ids,
    the breakdown of each returned summary is the list of items of the
    periods credited to that coach, in the order of the loop (student by
    student, period by period); its total is printed from the sum of the
    unrounded amounts, added in that order and rounded once; and its name
    is the first and last name of the roster coach with that id. *)
Theorem X4_summary_contents
    (storage : IStorage) (today : Date) (coaches : list CoachWithStudents)
    (settings : SystemSettings) (summaries : list CoachPaymentSummary)
    (s : CoachPaymentSummary) :
  getAllCoaches storage = Resolved coaches ->
  getSettings storage = Resolved settings ->
  NoDup (map coach_id coaches) ->
  paymentsCurrentMonth storage today = json summaries ->
  In s summaries ->
  let fee := parseFloat (coachMonthlyFee settings) in
  let cs := cycleStart today (globalPaymentDay settings) in
  let ce := cycleEnd today (globalPaymentDay settings) in
  breakdown s = creditedItems storage fee cs ce (coachId s) (allStudents coaches) /\
  totalAmount s =
    toFixed (fold_left PrimFloat.add
               (creditedAmounts storage fee cs ce (coachId s) (allStudents coaches))
               0%float) 2 /\
  exists coach,
    In coach coaches /\ coach_id coach = coachId s /\
    coachName s = (firstName coach ++ " " ++ lastName coach)%string.
Proof.
  intros HC HS N HJ I fee cs ce.
  destruct (final_coachPayments storage today coaches settings summaries HC HS N HJ)
    as (m & -> & K & F).
  destruct (buildSummaries_In m s I) as (data & Hin & E & _).
  assert (G : map_get (coachId s) m = Some data)
    by (apply map_get_NoDup; [rewrite K; exact N|exact Hin]).
  assert (Hid : In (coachId s) (map coach_id coaches)).
  { rewrite <- K. change (coachId s) with (fst (coachId s, data)). apply in_map, Hin. }
  destruct (F _ Hid) as (B & T & Nm).
  unfold breakdownOf in B. unfold totalOf in T. unfold nameOf in Nm at 1.
  rewrite G in B, T, Nm.
  split; [rewrite E; exact B|]. split.
  - rewrite E. cbn [totalAmount summaryOf]. rewrite T. reflexivity.
  - symmetry in Nm. apply initCoachPayments_names in Nm.
    destruct Nm as (coach & Ic & Ec & En). exists coach.
    repeat split; [exact Ic|exact Ec|]. rewrite E. exact En.
Qed.

Lemma X4_witness :
  breakdown ayseTwice =
    creditedItems awayAndBack (parseFloat (decimal 110000))
      (cycleStart (at_time (iso 2024 4 10) noon) 28)
      (cycleEnd (at_time (iso 2024 4 10) noon) 28)
      "c-ayse" (allStudents [coachAyse [elif]; coachBurak []]).
Proof.
  refine (proj1 (X4_summary_contents awayAndBack (at_time (iso 2024 4 10) noon)
                   [coachAyse [elif]; coachBurak []] defaultSettings
                   [ayseTwice; burakOnce] ayseTwice _ _ _ _ _)).
  - reflexivity.
  - reflexivity.
  - repeat constructor; simpl; intuition discriminate.
  - vm_compute. reflexivity.
  - left. reflexivity.
Defined.

(* ================================================================== *)
(** ** Further properties: the periods and the items *)
(* ================================================================== *)

Section MorePeriods.

Lemma middlePeriods_step (studentEnd : Date) (currentTransfer nextTransfer : CoachTransfer)
    (rest : list CoachTransfer) :
  middlePeriods studentEnd (currentTransfer :: nextTransfer :: rest) =
  (if (transferTime currentTransfer <=? transferTime nextTransfer - msPerDay)
      && (transferTime currentTransfer <=? studentEnd)
   then [ {| period_coachId := newCoachId currentTransfer;
             period_start := transferTime currentTransfer;
             period_end := if transferTime nextTransfer - msPerDay <? studentEnd
                           then transferTime nextTransfer - msPerDay
                           else studentEnd |} ]
   else [])
  ++ middlePeriods studentEnd (nextTransfer :: rest).
Proof.
  change (middlePeriods studentEnd (currentTransfer :: nextTransfer :: rest)) with
    ((let currentTransferDate := transferTime currentTransfer in
      let nextTransferDate := transferTime nextTransfer in
      let dayBeforeNext := setDate nextTransferDate (getDate nextTransferDate - 1) in
      if (currentTransferDate <=? dayBeforeNext) && (currentTransferDate <=? studentEnd)
      then [ {| period_coachId := newCoachId currentTransfer;
                period_start := currentTransferDate;
                period_end := if dayBeforeNext <? studentEnd
                              then dayBeforeNext else studentEnd |} ]
      else []) ++ middlePeriods studentEnd (nextTransfer :: rest)).
  cbv zeta. rewrite dayBefore. reflexivity.
Qed.

Lemma middlePeriods_coach (studentEnd : Date) (rel : list CoachTransfer) (p : Period) :
  In p (middlePeriods studentEnd rel) ->
  exists t, In t rel /\ period_coachId p = newCoachId t.
Proof.
  induction rel as [|t rel IH]; [intros []|].
  destruct rel as [|t' rel]; [intros []|].
  rewrite middlePeriods_step. intros H. apply in_app_or in H. destruct H as [H|H].
  - destruct (_ && _); [|destruct H].
    destruct H as [<-|[]]. exists t. split; [left; reflexivity|reflexivity].
  - destruct (IH H) as (u & I & E). exists u. split; [right; exact I|exact E].
Qed.

Lemma last_In {A : Type} (l : list A) (d : A) : l <> [] -> In (last l d) l.
Proof.
  intros N. destruct (exists_last N) as (l' & a & ->).
  rewrite last_last. apply in_or_app. right. left. reflexivity.
Qed.

Lemma buildPeriods_coach (c : string) (ws we studentEnd : Date)
    (rel : list CoachTransfer) (p : Period) :
  In p (buildPeriods c ws we studentEnd rel) ->
  period_coachId p = c \/ exists t, In t rel /\ period_coachId p = newCoachId t.
Proof.
  destruct rel as [|first rest].
  - intros [<-|[]]. left. reflexivity.
  - unfold buildPeriods. cbv zeta. intros H.
    apply in_app_or in H. destruct H as [H|H].
    + destruct (ws <? _); [|destruct H]. destruct H as [<-|[]]. left. reflexivity.
    + apply in_app_or in H. destruct H as [H|H].
      * right. apply (middlePeriods_coach studentEnd). exact H.
      * destruct (_ <=? we); [|destruct H]. destruct H as [<-|[]].
        right. exists (last (first :: rest) first).
        split; [apply last_In; discriminate|reflexivity].
Qed.

Lemma coachAtWorkStart_origin (sorted : list CoachTransfer) (ws : Date) (c : string) :
  coachAtWorkStart sorted ws c = c \/
  exists t, In t sorted /\
            (coachAtWorkStart sorted ws c = oldCoachId t \/
             coachAtWorkStart sorted ws c = newCoachId t).
Proof.
  unfold coachAtWorkStart. cbv zeta.
  destruct (rev (filter _ sorted)) as [|t r] eqn:R.
  - destruct sorted as [|t l]; [left; reflexivity|].
    right. exists t. split; [left; reflexivity|left; reflexivity].
  - right. exists t. split; [|right; reflexivity].
    assert (I : In t (rev (filter (fun t0 => parseISO (transferDate t0) <? ws) sorted)))
      by (rewrite R; left; reflexivity).
    apply in_rev in I. apply filter_In in I. apply I.
Qed.

Lemma historyCoaches_In (history : list CoachTransfer) (t : CoachTransfer) :
  In t history ->
  In (oldCoachId t) (historyCoaches history) /\ In (newCoachId t) (historyCoaches history).
Proof.
  intros I. unfold historyCoaches. split; apply in_flat_map; exists t;
    (split; [exact I|simpl; auto]).
Qed.

(** The coach of a period is the current coach or a coach the history
    names. *)
Lemma studentPeriods_coach (cs ce : Date) (student : Student) (coach : string)
    (allTransfers : list CoachTransfer) (p : Period) :
  In p (studentPeriods cs ce student coach allTransfers) ->
  In (period_coachId p) (coach :: historyCoaches allTransfers).
Proof.
  unfold studentPeriods. cbv zeta. intros H.
  assert (S : forall t, In t (sortedTransfers allTransfers) -> In t allTransfers).
  { intros t I. eapply Permutation_in;
      [apply Permutation_sym, sortedTransfers_perm|exact I]. }
  apply buildPeriods_coach in H. destruct H as [H|(t & I & E)].
  - rewrite H.
    destruct (coachAtWorkStart_origin (sortedTransfers allTransfers)
                (workStart cs student) coach) as [->|(t & I & [->| ->])].
    + left. reflexivity.
    + right. apply historyCoaches_In, S, I.
    + right. apply historyCoaches_In, S, I.
  - rewrite E. right. apply historyCoaches_In, S.
    unfold relevantTransfers in I. apply filter_In in I. apply I.
Qed.

Lemma entryPeriods_tiles (storage : IStorage) (cs ce : Date) (student : Student)
    (coach : string) (p : Period) :
  midnight cs -> midnight ce ->
  In p (entryPeriods storage cs ce (student, coach)) ->
  workStart cs student <= workEnd ce student /\
  tiles (workStart cs student) (workEnd ce student)
        (entryPeriods storage cs ce (student, coach)).
Proof.
  intros Ms Me. unfold entryPeriods.
  destruct (Z.ltb_spec (workEnd ce student) (workStart cs student)) as [Lt|Ge];
    [intros []|].
  intros _. split; [exact Ge|]. apply studentPeriods_tiles; assumption.
Qed.

Lemma allStudents_In (coaches : list CoachWithStudents) (student : Student) (id : string) :
  In (student, id) (allStudents coaches) <->
  exists coach, In coach coaches /\ coach_id coach = id /\
                In student (students coach) /\ isActive student = 1.
Proof.
  unfold allStudents. rewrite in_flat_map. split.
  - intros (coach & Ic & H). apply in_map_iff in H.
    destruct H as (s & E & Is). injection E as -> <-.
    apply filter_In in Is. destruct Is as (Is & A).
    exists coach. repeat split; try assumption. apply Z.eqb_eq, A.
  - intros (coach & Ic & <- & Is & A). exists coach. split; [exact Ic|].
    apply in_map_iff. exists student. split; [reflexivity|].
    apply filter_In. split; [exact Is|apply Z.eqb_eq, A].
Qed.

Lemma creditedItems_In (storage : IStorage) (fee : float) (cs ce : Date) (id : string)
    (entries : list (Student * string)) (item : PaymentBreakdownItem) :
  In item (creditedItems storage fee cs ce id entries) <->
  exists entry p,
    In entry entries /\ In p (entryPeriods storage cs ce entry) /\
    attributed id p = true /\ item = itemOf fee (fst entry) p.
Proof.
  unfold creditedItems. rewrite in_flat_map. split.
  - intros (entry & Ie & H). apply in_map_iff in H.
    destruct H as (p & E & Ip). apply filter_In in Ip.
    exists entry, p. repeat split; try tauto. congruence.
  - intros (entry & p & Ie & Ip & A & ->). exists entry. split; [exact Ie|].
    apply in_map. apply filter_In. split; assumption.
Qed.

Lemma differenceInDays_mono (a b c d : Date) :
  b - a <= d - c -> differenceInDays b a <= differenceInDays d c.
Proof.
  intros H. unfold differenceInDays. apply Z.quot_le_mono; [unfold msPerDay; lia|exact H].
Qed.

Lemma differenceInDays_nonneg (a b : Date) : a <= b -> 0 <= differenceInDays b a.
Proof.
  intros H. unfold differenceInDays. apply Z.quot_pos; [lia|unfold msPerDay; lia].
Qed.

Lemma workStart_ge (cs : Date) (student : Student) : cs <= workStart cs student.
Proof.
  unfold workStart. destruct (Z.ltb_spec cs (parseISO (packageStartDate student))); lia.
Qed.

Lemma workEnd_le (ce : Date) (student : Student) : workEnd ce student <= ce.
Proof.
  unfold workEnd. destruct (Z.ltb_spec (parseISO (packageEndDate student)) ce); lia.
Qed.

Lemma cycle_length (today : Date) (paymentDay : Z) :
  100 < getFullYear today -> 1 <= paymentDay <= 31 ->
  28 <= differenceInDays (cycleEnd today paymentDay) (cycleStart today paymentDay) + 1
     <= 31.
Proof.
  intros Hy Hd. pose proof (cycle_resolution today paymentDay Hy Hd) as R.
  cbv zeta in R.
  destruct (if _ <? _ then _ else _) as [ey em].
  destruct (previousMonth (ey, em)) as [py pm].
  apply R.
Qed.

End MorePeriods.

Lemma summary_breakdown (storage : IStorage) (today : Date)
    (coaches : list CoachWithStudents) (settings : SystemSettings)
    (summaries : list CoachPaymentSummary) (s : CoachPaymentSummary) :
  getAllCoaches storage = Resolved coaches ->
  getSettings storage = Resolved settings ->
  NoDup (map coach_id coaches) ->
  paymentsCurrentMonth storage today = json summaries ->
  In s summaries ->
  In (coachId s) (map coach_id coaches) /\
  breakdown s =
    creditedItems storage (parseFloat (coachMonthlyFee settings))
      (cycleStart today (globalPaymentDay settings))
      (cycleEnd today (globalPaymentDay settings))
      (coachId s) (allStudents coaches).
Proof.
  intros HC HS N HJ I.
  destruct (final_coachPayments storage today coaches settings summaries HC HS N HJ)
    as (m & -> & K & F).
  destruct (buildSummaries_In m s I) as (data & Hin & E & _).
  assert (G : map_get (coachId s) m = Some data)
    by (apply map_get_NoDup; [rewrite K; exact N|exact Hin]).
  assert (Hid : In (coachId s) (map coach_id coaches)).
  { rewrite <- K. change (coachId s) with (fst (coachId s, data)). apply in_map, Hin. }
  split; [exact Hid|].
  destruct (F _ Hid) as (B & _). unfold breakdownOf in B. rewrite G in B.
  rewrite E. exact B.
Qed.

(** X5. Where an item comes from.  For a roster with distinct coach
    ids, every breakdown item of a returned summary belongs to an active
    student listed under a roster coach and to one period of that
    student attributed to the summary's coach; the period lies inside the
    student's work window, and the item's day count is between 1 and the
    inclusive length of the work window, hence at most 31 under a payment
    day from 1 to 31. *)
Theorem X5_item_origin_and_day_bounds
    (storage : IStorage) (today : Date) (coaches : list CoachWithStudents)
    (settings : SystemSettings) (summaries : list CoachPaymentSummary)
    (s : CoachPaymentSummary) (item : PaymentBreakdownItem) :
  getAllCoaches storage = Resolved coaches ->
  getSettings storage = Resolved settings ->
  NoDup (map coach_id coaches) ->
  paymentsCurrentMonth storage today = json summaries ->
  In s summaries ->
  In item (breakdown s) ->
  let cs := cycleStart today (globalPaymentDay settings) in
  let ce := cycleEnd today (globalPaymentDay settings) in
  exists coach student p,
    In coach coaches /\ In student (students coach) /\ isActive student = 1 /\
    item_studentId item = student_id student /\
    In p (studentPeriods cs ce student (coach_id coach)
            (historyOf storage (student_id student))) /\
    period_coachId p = coachId s /\
    daysWorked item = differenceInDays (period_end p) (period_start p) + 1 /\
    workStart cs student <= period_start p /\
    period_start p <= period_end p /\
    period_end p <= workEnd ce student /\
    1 <= daysWorked item
      <= differenceInDays (workEnd ce student) (workStart cs student) + 1 /\
    (100 < getFullYear today -> 1 <= globalPaymentDay settings <= 31 ->
     daysWorked item <= 31).
Proof.
  intros HC HS N HJ Is Ii cs ce.
  destruct (summary_breakdown storage today coaches settings summaries s HC HS N HJ Is)
    as (_ & B).
  fold cs ce in B. rewrite B in Ii. apply creditedItems_In in Ii.
  destruct Ii as ([student id] & p & Ie & Ip & A & ->).
  apply allStudents_In in Ie. destruct Ie as (coach & Ic & <- & Hs & Ha).
  pose proof (midnight_cycleStart today (globalPaymentDay settings)) as Ms.
  pose proof (midnight_cycleEnd today (globalPaymentDay settings)) as Me.
  fold cs in Ms. fold ce in Me.
  destruct (entryPeriods_tiles storage cs ce student (coach_id coach) p Ms Me Ip)
    as (Hw & T).
  pose proof (tiles_bounds _ _ _ T) as Bd. rewrite Forall_forall in Bd.
  specialize (Bd p Ip). cbv beta in Bd. destruct Bd as (B1 & B2 & B3).
  unfold attributed in A. apply andb_true_iff in A. destruct A as (_ & A).
  apply String.eqb_eq in A.
  assert (Hp : In p (studentPeriods cs ce student (coach_id coach)
                       (historyOf storage (student_id student)))).
  { unfold entryPeriods in Ip.
    destruct (Z.ltb_spec (workEnd ce student) (workStart cs student)); [lia|exact Ip]. }
  pose proof (differenceInDays_nonneg _ _ B2) as D0.
  pose proof (differenceInDays_mono (period_start p) (period_end p)
                (workStart cs student) (workEnd ce student) ltac:(lia)) as D1.
  exists coach, student, p. cbn [fst itemOf item_studentId daysWorked].
  unfold periodDays.
  repeat split; try assumption; try lia.
  intros Hy Hd.
  pose proof (cycle_length today (globalPaymentDay settings) Hy Hd) as L.
  fold cs ce in L.
  pose proof (differenceInDays_mono (workStart cs student) (workEnd ce student) cs ce
                ltac:(pose proof (workStart_ge cs student);
                      pose proof (workEnd_le ce student); lia)) as D2.
  lia.
Qed.

Lemma X5_witness :
  exists coach student p,
    In coach [coachAyse [elif]; coachBurak []] /\
    In student (students coach) /\ isActive student = 1 /\
    In p (studentPeriods
            (cycleStart (at_time (iso 2024 4 10) noon) (globalPaymentDay defaultSettings))
            (cycleEnd (at_time (iso 2024 4 10) noon) (globalPaymentDay defaultSettings))
            student (coach_id coach)
            (historyOf awayAndBack (student_id student))) /\
    period_coachId p = coachId burakOnce.
Proof.
  destruct (X5_item_origin_and_day_bounds awayAndBack (at_time (iso 2024 4 10) noon)
              [coachAyse [elif]; coachBurak []] defaultSettings
              [ayseTwice; burakOnce] burakOnce
              {| item_studentId := "s-elif"; studentName := "Elif Yilmaz";
                 amount := "366.67"; daysWorked := 10 |})
    as (coach & student & p & H1 & H2 & H3 & _ & H5 & H6 & _).
  - reflexivity.
  - reflexivity.
  - repeat constructor; simpl; intuition discriminate.
  - vm_compute. reflexivity.
  - right. left. reflexivity.
  - left. reflexivity.
  - exists coach, student, p.
    exact (conj H1 (conj H2 (conj H3 (conj H5 H6)))).
Defined.

(* ================================================================== *)
(** ** Further properties: no day is lost *)
(* ================================================================== *)

Section Sums.

Lemma sumOf_app {A : Type} (f : A -> Z) (l l' : list A) :
  sumOf f (l ++ l') = sumOf f l + sumOf f l'.
Proof.
  unfold sumOf. induction l as [|x l IH]; simpl; [reflexivity|]. rewrite IH. lia.
Qed.

Lemma sumOf_ext_in {A : Type} (f g : A -> Z) (l : list A) :
  (forall x, In x l -> f x = g x) -> sumOf f l = sumOf g l.
Proof.
  intros H. unfold sumOf. f_equal. apply map_ext_in, H.
Qed.

Lemma sumOf_zero {A : Type} (l : list A) : sumOf (fun _ => 0) l = 0.
Proof. unfold sumOf. induction l as [|x l IH]; simpl; [reflexivity|]. rewrite IH. lia. Qed.

Lemma sumOf_filter {A : Type} (f : A -> Z) (P : A -> bool) (l : list A) :
  sumOf f (filter P l) = sumOf (fun x => if P x then f x else 0) l.
Proof.
  unfold sumOf. induction l as [|x l IH]; simpl; [reflexivity|].
  destruct (P x); simpl; rewrite IH; reflexivity.
Qed.

Lemma sumOf_flat_map {A : Type} {B : Type} (f : B -> Z) (g : A -> list B) (l : list A) :
  sumOf f (flat_map g l) = sumOf (fun x => sumOf f (g x)) l.
Proof.
  induction l as [|x l IH]; [reflexivity|].
  cbn [flat_map]. rewrite sumOf_app, IH. reflexivity.
Qed.

Lemma sumOf_map {A : Type} {B : Type} (f : B -> Z) (g : A -> B) (l : list A) :
  sumOf f (map g l) = sumOf (fun x => f (g x)) l.
Proof. unfold sumOf. rewrite map_map. reflexivity. Qed.

Lemma sumOf_plus {A : Type} (f g : A -> Z) (l : list A) :
  sumOf (fun x => f x + g x) l = sumOf f l + sumOf g l.
Proof.
  unfold sumOf. induction l as [|x l IH]; simpl; [reflexivity|]. rewrite IH. lia.
Qed.

Lemma sumOf_swap {A : Type} {B : Type} (F : A -> B -> Z) (la : list A) (lb : list B) :
  sumOf (fun a => sumOf (fun b => F a b) lb) la =
  sumOf (fun b => sumOf (fun a => F a b) la) lb.
Proof.
  induction la as [|a la IH].
  - cbn. symmetry. apply sumOf_zero.
  - change (sumOf (fun a0 => sumOf (fun b => F a0 b) lb) (a :: la))
      with (sumOf (fun b => F a b) lb + sumOf (fun a0 => sumOf (fun b => F a0 b) lb) la).
    rewrite IH, <- sumOf_plus. apply sumOf_ext_in. intros b _. reflexivity.
Qed.

(** In a list whose keys are distinct, a sum restricted to one key has
    one term. *)
Lemma sumOf_one_key {A : Type} (key : A -> string) (F : A -> Z) (l : list A) (x0 : A) :
  NoDup (map key l) -> In x0 l ->
  sumOf (fun x => if String.eqb (key x) (key x0) then F x else 0) l = F x0.
Proof.
  unfold sumOf. induction l as [|x l IH]; intros N I; [destruct I|].
  cbn [map] in N. inversion N as [|? ? Hnot N']; subst. simpl.
  destruct I as [->|I].
  - rewrite String.eqb_refl.
    replace (sumZ (map (fun x => if String.eqb (key x) (key x0) then F x else 0) l))
      with 0; [lia|].
    symmetry. change (sumOf (fun x => if String.eqb (key x) (key x0) then F x else 0) l = 0).
    transitivity (sumOf (fun _ : A => 0) l); [|apply sumOf_zero].
    apply sumOf_ext_in. intros y Hy.
    destruct (String.eqb_spec (key y) (key x0)) as [E|_]; [|reflexivity].
    exfalso. apply Hnot. rewrite <- E. apply in_map, Hy.
  - destruct (String.eqb_spec (key x) (key x0)) as [E|_].
    + exfalso. apply Hnot. rewrite E. apply in_map, I.
    + rewrite (IH N' I). lia.
Qed.

End Sums.

Section Conservation.

Lemma flat_map_keys {V B : Type} (f : string * V -> list B) (g : string -> list B)
    (m : list (string * V)) :
  (forall kv, In kv m -> f kv = g (fst kv)) ->
  flat_map f m = flat_map g (map fst m).
Proof.
  induction m as [|kv m IH]; intros H; [reflexivity|].
  cbn [flat_map map]. rewrite (H kv) by (left; reflexivity).
  rewrite IH by (intros; apply H; right; assumption). reflexivity.
Qed.

Lemma flat_map_same_in {X B : Type} (f g : X -> list B) (l : list X) :
  (forall x, In x l -> f x = g x) -> flat_map f l = flat_map g l.
Proof.
  induction l as [|x l IH]; intros H; [reflexivity|].
  cbn [flat_map]. rewrite (H x) by (left; reflexivity).
  rewrite IH by (intros; apply H; right; assumption). reflexivity.
Qed.

Lemma buildSummaries_items (m : PaymentMap) :
  flat_map breakdown (buildSummaries m) =
  flat_map (fun kv => data_breakdown (snd kv)) m.
Proof.
  unfold buildSummaries. induction m as [|[k v] m IH]; [reflexivity|].
  cbn [flat_map snd]. rewrite flat_map_app, IH. f_equal.
  destruct (data_breakdown v) as [|i l]; [reflexivity|].
  cbn [List.length Nat.ltb Nat.leb flat_map breakdown]. apply app_nil_r.
Qed.

(** All items of an answer, coach by coach in roster order. *)
Lemma summaries_items (storage : IStorage) (today : Date)
    (coaches : list CoachWithStudents) (settings : SystemSettings)
    (summaries : list CoachPaymentSummary) :
  getAllCoaches storage = Resolved coaches ->
  getSettings storage = Resolved settings ->
  NoDup (map coach_id coaches) ->
  paymentsCurrentMonth storage today = json summaries ->
  flat_map breakdown summaries =
  flat_map
    (fun id =>
       creditedItems storage (parseFloat (coachMonthlyFee settings))
         (cycleStart today (globalPaymentDay settings))
         (cycleEnd today (globalPaymentDay settings)) id (allStudents coaches))
    (map coach_id coaches).
Proof.
  intros HC HS N HJ.
  destruct (final_coachPayments storage today coaches settings summaries HC HS N HJ)
    as (m & -> & K & F).
  rewrite buildSummaries_items.
  rewrite (flat_map_keys _ (fun id => breakdownOf id m)).
  - rewrite K. apply flat_map_same_in. intros id I. apply (F id I).
  - intros [k v] I. cbn [fst snd]. unfold breakdownOf.
    rewrite (map_get_NoDup k v m); [reflexivity|rewrite K; exact N|exact I].
Qed.

(** Over a roster with distinct ids, a period that passes the loop's
    test and names a roster coach is attributed to exactly one coach. *)
Lemma attributed_once (ids : list string) (p : Period) (c : Z) :
  NoDup ids -> In (period_coachId p) ids -> period_start p <= period_end p ->
  sumOf (fun id => if attributed id p then c else 0) ids = c.
Proof.
  intros N I H.
  transitivity
    (sumOf (fun id : string => if String.eqb id (period_coachId p) then c else 0) ids).
  2:{ apply (sumOf_one_key (fun id : string => id) (fun _ => c) ids (period_coachId p));
      [rewrite map_id; exact N|exact I]. }
  apply sumOf_ext_in. intros id _. unfold attributed.
  destruct (Z.leb_spec (period_start p) (period_end p)); [|lia].
  cbn [andb]. rewrite String.eqb_sym. reflexivity.
Qed.

End Conservation.

Lemma NoDup_key_eq {A : Type} (key : A -> string) (l : list A) (x y : A) :
  NoDup (map key l) -> In x l -> In y l -> key x = key y -> x = y.
Proof.
  induction l as [|a l IH]; intros N Ix Iy E; [destruct Ix|].
  cbn [map] in N. inversion N as [|? ? Hnot N']; subst.
  destruct Ix as [->|Ix], Iy as [->|Iy].
  - reflexivity.
  - exfalso. apply Hnot. rewrite E. apply in_map, Iy.
  - exfalso. apply Hnot. rewrite <- E. apply in_map, Ix.
  - apply IH; assumption.
Qed.

(** The days paid for one student, over all coaches, are the days of
    the student's periods. *)
Lemma daysPaidFor_periods (storage : IStorage) (today : Date)
    (coaches : list CoachWithStudents) (settings : SystemSettings)
    (summaries : list CoachPaymentSummary) (student : Student) (coach : string) :
  getAllCoaches storage = Resolved coaches ->
  getSettings storage = Resolved settings ->
  NoDup (map coach_id coaches) ->
  paymentsCurrentMonth storage today = json summaries ->
  In (student, coach) (allStudents coaches) ->
  NoDup (map (fun entry => student_id (fst entry)) (allStudents coaches)) ->
  let cs := cycleStart today (globalPaymentDay settings) in
  let ce := cycleEnd today (globalPaymentDay settings) in
  (forall p, In p (entryPeriods storage cs ce (student, coach)) ->
             period_start p <= period_end p /\
             In (period_coachId p) (map coach_id coaches)) ->
  daysPaidFor (student_id student) summaries =
  sumZ (map periodDays (entryPeriods storage cs ce (student, coach))).
Proof.
  intros HC HS N HJ Ie Ns cs ce Reg.
  unfold daysPaidFor.
  change (sumZ (map daysWorked ?l)) with (sumOf daysWorked l).
  rewrite sumOf_filter.
  rewrite (summaries_items storage today coaches settings summaries HC HS N HJ).
  fold cs ce. rewrite sumOf_flat_map.
  set (fee := parseFloat (coachMonthlyFee settings)).
  set (sid := student_id student).
  set (F := fun (id : string) (entry : Student * string) =>
              sumOf (fun p => if attributed id p
                              then (if String.eqb (student_id (fst entry)) sid
                                    then periodDays p else 0)
                              else 0)
                    (entryPeriods storage cs ce entry)).
  rewrite (sumOf_ext_in _ (fun id => sumOf (F id) (allStudents coaches))).
  2:{ intros id _. unfold creditedItems. rewrite sumOf_flat_map.
      apply sumOf_ext_in. intros entry _. rewrite sumOf_map, sumOf_filter.
      reflexivity. }
  rewrite sumOf_swap.
  rewrite (sumOf_ext_in _
             (fun entry => if String.eqb (student_id (fst entry))
                                         (student_id (fst (student, coach)))
                           then sumOf periodDays (entryPeriods storage cs ce entry)
                           else 0)).
  - rewrite (sumOf_one_key (fun entry : Student * string => student_id (fst entry))
               (fun entry => sumOf periodDays (entryPeriods storage cs ce entry))
               (allStudents coaches) (student, coach) Ns Ie).
    reflexivity.
  - intros entry Ientry. cbn [fst]. fold sid. unfold F.
    destruct (String.eqb_spec (student_id (fst entry)) sid) as [E|Ne].
    + assert (entry = (student, coach))
        by (apply (NoDup_key_eq (fun e : Student * string => student_id (fst e))
                     (allStudents coaches)); assumption).
      subst entry. rewrite sumOf_swap.
      apply sumOf_ext_in. intros p Ip. destruct (Reg p Ip) as (Hp & Hc).
      apply attributed_once; assumption.
    + rewrite (sumOf_ext_in _ (fun _ => 0)).
      * apply sumOf_zero.
      * intros id _. rewrite (sumOf_ext_in _ (fun _ => 0)); [apply sumOf_zero|].
        intros p _. destruct (attributed id p); reflexivity.
Qed.

(** X6. No day is lost between coaches.  For a roster with distinct
    coach ids and distinct student ids, a student whose package window
    meets the cycle and whose history names only coaches of the roster is
    paid for, over all returned summaries together, exactly the inclusive
    number of days of the work window; a student whose package window
    misses the cycle is paid for no day. *)
Theorem X6_days_of_a_student_are_conserved
    (storage : IStorage) (today : Date) (coaches : list CoachWithStudents)
    (settings : SystemSettings) (summaries : list CoachPaymentSummary)
    (student : Student) (coach : string) :
  getAllCoaches storage = Resolved coaches ->
  getSettings storage = Resolved settings ->
  NoDup (map coach_id coaches) ->
  paymentsCurrentMonth storage today = json summaries ->
  In (student, coach) (allStudents coaches) ->
  NoDup (map (fun entry => student_id (fst entry)) (allStudents coaches)) ->
  let cs := cycleStart today (globalPaymentDay settings) in
  let ce := cycleEnd today (globalPaymentDay settings) in
  (workStart cs student <= workEnd ce student ->
   (forall c, In c (historyCoaches (historyOf storage (student_id student))) ->
              In c (map coach_id coaches)) ->
   daysPaidFor (student_id student) summaries =
   differenceInDays (workEnd ce student) (workStart cs student) + 1) /\
  (workEnd ce student < workStart cs student ->
   daysPaidFor (student_id student) summaries = 0).
Proof.
  intros HC HS N HJ Ie Ns cs ce.
  pose proof (midnight_cycleStart today (globalPaymentDay settings)) as Ms.
  pose proof (midnight_cycleEnd today (globalPaymentDay settings)) as Me.
  fold cs in Ms. fold ce in Me.
  split.
  - intros Hw Hh.
    rewrite (daysPaidFor_periods storage today coaches settings summaries student coach
               HC HS N HJ Ie Ns).
    + fold cs ce. unfold entryPeriods.
      destruct (Z.ltb_spec (workEnd ce student) (workStart cs student)); [lia|].
      apply (tiles_days (workStart cs student) (workEnd ce student)).
      * apply studentPeriods_tiles; assumption.
      * apply midnight_workStart, Ms.
      * apply midnight_workEnd, Me.
    + fold cs ce. intros p Ip.
      destruct (entryPeriods_tiles storage cs ce student coach p Ms Me Ip) as (_ & T).
      pose proof (tiles_bounds _ _ _ T) as Bd. rewrite Forall_forall in Bd.
      split; [apply (Bd p Ip)|].
      unfold entryPeriods in Ip.
      destruct (Z.ltb_spec (workEnd ce student) (workStart cs student)); [lia|].
      apply studentPeriods_coach in Ip. destruct Ip as [<-|Ip].
      * apply allStudents_In in Ie. destruct Ie as (c & Ic & <- & _).
        apply in_map, Ic.
      * apply Hh, Ip.
  - intros Hw.
    rewrite (daysPaidFor_periods storage today coaches settings summaries student coach
               HC HS N HJ Ie Ns).
    + fold cs ce. unfold entryPeriods.
      destruct (Z.ltb_spec (workEnd ce student) (workStart cs student)); [reflexivity|lia].
    + fold cs ce. unfold entryPeriods.
      destruct (Z.ltb_spec (workEnd ce student) (workStart cs student)); [intros p []|lia].
Qed.

Lemma X6_witness :
  daysPaidFor (student_id elif) [ayseTwice; burakOnce] =
  differenceInDays
    (workEnd (cycleEnd (at_time (iso 2024 4 10) noon) (globalPaymentDay defaultSettings))
       elif)
    (workStart (cycleStart (at_time (iso 2024 4 10) noon) (globalPaymentDay defaultSettings))
       elif) + 1.
Proof.
  refine (proj1 (X6_days_of_a_student_are_conserved awayAndBack
                   (at_time (iso 2024 4 10) noon) [coachAyse [elif]; coachBurak []]
                   defaultSettings [ayseTwice; burakOnce] elif "c-ayse"%string
                   _ _ _ _ _ _) _ _).
  - reflexivity.
  - reflexivity.
  - repeat constructor; simpl; intuition discriminate.
  - vm_compute. reflexivity.
  - left. reflexivity.
  - repeat constructor; simpl; intuition.
  - vm_compute. discriminate.
  - intros c H. simpl in H. simpl. intuition.
Defined.

(* ================================================================== *)
(** ** Further properties: transfers outside the work window *)
(* ================================================================== *)

Section OutsideWindow.

Lemma StronglySorted_last {A : Type} (R : A -> A -> Prop) (l : list A) (u : A) :
  StronglySorted R (l ++ [u]) -> forall x, In x l -> R x u.
Proof.
  induction l as [|a l IH]; intros S x I; [destruct I|].
  cbn [app] in S. inversion S as [|? ? S' F]; subst.
  destruct I as [->|I].
  - rewrite Forall_forall in F. apply F, in_or_app. right. left. reflexivity.
  - apply IH; assumption.
Qed.

Lemma filter_none {A : Type} (f : A -> bool) (l : list A) :
  (forall x, In x l -> f x = false) -> filter f l = [].
Proof.
  induction l as [|a l IH]; intros H; [reflexivity|].
  cbn [filter]. rewrite (H a) by (left; reflexivity).
  apply IH. intros x I. apply H. right. exact I.
Qed.

Lemma relevantTransfers_none (l : list CoachTransfer) (ws we : Date) :
  (forall t, In t l -> transferTime t < ws \/ we < transferTime t) ->
  relevantTransfers (sortedTransfers l) ws we = [].
Proof.
  intros H. unfold relevantTransfers. apply filter_none.
  intros t I. cbv zeta. fold (transferTime t).
  assert (It : In t l)
    by (eapply Permutation_in; [apply Permutation_sym, sortedTransfers_perm|exact I]).
  destruct (H t It); destruct (Z.leb_spec ws (transferTime t)),
    (Z.leb_spec (transferTime t) we); try reflexivity; lia.
Qed.

(** With a latest transfer before the work window, the coach at its
    start is that transfer's new coach. *)
Lemma coachAtWorkStart_latest_before (l : list CoachTransfer) (ws : Date)
    (coach : string) (t1 : CoachTransfer) :
  In t1 l -> transferTime t1 < ws ->
  (forall t, In t l -> transferTime t < ws -> t = t1 \/ transferTime t < transferTime t1) ->
  coachAtWorkStart (sortedTransfers l) ws coach = newCoachId t1.
Proof.
  intros I1 H1 Hmax. unfold coachAtWorkStart. cbv zeta.
  set (before := filter (fun t => parseISO (transferDate t) <? ws) (sortedTransfers l)).
  assert (Sb : StronglySorted (fun a b => transferTime a <= transferTime b) before)
    by apply filter_StronglySorted, sortedTransfers_sorted.
  assert (Ib : In t1 before).
  { apply filter_In. split.
    - eapply Permutation_in; [apply sortedTransfers_perm|exact I1].
    - apply Z.ltb_lt. exact H1. }
  destruct (rev before) as [|u r] eqn:R.
  - apply in_rev in Ib. rewrite R in Ib. destruct Ib.
  - assert (E : before = rev r ++ [u])
      by (rewrite <- (rev_involutive before), R; reflexivity).
    assert (Iu : In u before) by (rewrite E; apply in_or_app; right; left; reflexivity).
    apply filter_In in Iu. destruct Iu as (Iu & Hu). apply Z.ltb_lt in Hu.
    assert (Il : In u l)
      by (eapply Permutation_in; [apply Permutation_sym, sortedTransfers_perm|exact Iu]).
    destruct (Hmax u Il Hu) as [->|Lt]; [reflexivity|].
    exfalso. rewrite E in Sb, Ib. apply in_app_or in Ib.
    destruct Ib as [Ib|[->|[]]]; [|lia].
    pose proof (StronglySorted_last _ _ _ Sb t1 Ib). cbv beta in *. lia.
Qed.

(** With no transfer before the work window, the coach at its start is
    the old coach of the earliest transfer. *)
Lemma coachAtWorkStart_earliest (l : list CoachTransfer) (ws : Date)
    (coach : string) (t0 : CoachTransfer) :
  In t0 l ->
  (forall t, In t l -> ws <= transferTime t) ->
  (forall t, In t l -> t = t0 \/ transferTime t0 < transferTime t) ->
  coachAtWorkStart (sortedTransfers l) ws coach = oldCoachId t0.
Proof.
  intros I0 Hnone Hmin. unfold coachAtWorkStart. cbv zeta.
  assert (B : filter (fun t => parseISO (transferDate t) <? ws) (sortedTransfers l) = []).
  { apply filter_none. intros t I. apply Z.ltb_ge. apply Hnone.
    eapply Permutation_in; [apply Permutation_sym, sortedTransfers_perm|exact I]. }
  rewrite B. cbn [rev].
  pose proof (sortedTransfers_sorted l) as S.
  pose proof (sortedTransfers_perm l) as P.
  destruct (sortedTransfers l) as [|h s].
  - apply Permutation_sym, Permutation_nil in P. subst l. destruct I0.
  - assert (Ih : In h l)
      by (eapply Permutation_in; [apply Permutation_sym, P|left; reflexivity]).
    destruct (Hmin h Ih) as [->|Lt]; [reflexivity|].
    exfalso. assert (I0' : In t0 (h :: s)) by (eapply Permutation_in; eassumption).
    inversion S as [|? ? S' F]; subst. destruct I0' as [->|I0']; [lia|].
    rewrite Forall_forall in F. specialize (F t0 I0'). cbv beta in F. lia.
Qed.

End OutsideWindow.

(** X7. Transfers outside the work window.  When no transfer of the
    history is dated inside the work window, the student gets one period,
    the whole work window.  It goes to the new coach of the latest
    transfer before the window when there is one; and when all transfers
    are dated after the window, it goes to the old coach of the earliest
    transfer, not to the student's current coach. *)
Theorem X7_transfers_outside_the_window
    (cs ce : Date) (student : Student) (currentCoachId : string)
    (allTransfers : list CoachTransfer) :
  let ws := workStart cs student in
  let we := workEnd ce student in
  let whole (c : string) :=
    [ {| period_coachId := c; period_start := ws; period_end := we |} ] in
  (forall t, In t allTransfers -> transferTime t < ws \/ we < transferTime t) ->
  (exists c, studentPeriods cs ce student currentCoachId allTransfers = whole c) /\
  (forall t1,
     In t1 allTransfers -> transferTime t1 < ws ->
     (forall t, In t allTransfers -> transferTime t < ws ->
                t = t1 \/ transferTime t < transferTime t1) ->
     studentPeriods cs ce student currentCoachId allTransfers = whole (newCoachId t1)) /\
  (forall t0,
     In t0 allTransfers ->
     (forall t, In t allTransfers -> we < transferTime t) ->
     (forall t, In t allTransfers -> t = t0 \/ transferTime t0 < transferTime t) ->
     ws <= we ->
     studentPeriods cs ce student currentCoachId allTransfers = whole (oldCoachId t0)).
Proof.
  intros ws we whole Hout.
  assert (E : forall c,
             coachAtWorkStart (sortedTransfers allTransfers) ws currentCoachId = c ->
             studentPeriods cs ce student currentCoachId allTransfers = whole c).
  { intros c Hc. unfold studentPeriods. cbv zeta. fold ws we.
    rewrite (relevantTransfers_none allTransfers ws we Hout), Hc. reflexivity. }
  split; [|split].
  - eexists. apply E. reflexivity.
  - intros t1 I1 H1 Hmax. apply E.
    apply coachAtWorkStart_latest_before; assumption.
  - intros t0 I0 Hafter Hmin Hw. apply E.
    apply coachAtWorkStart_earliest; [exact I0| |exact Hmin].
    intros t It. specialize (Hafter t It). lia.
Qed.

Lemma X7_witness :
  studentPeriods (parseISO (iso 2024 2 29)) (parseISO (iso 2024 3 28)) elif "c-burak"
    [toBurak] =
  [ {| period_coachId := "c-ayse";
       period_start := workStart (parseISO (iso 2024 2 29)) elif;
       period_end := workEnd (parseISO (iso 2024 3 28)) elif |} ].
Proof.
  refine (proj2 (proj2 (X7_transfers_outside_the_window
                          (parseISO (iso 2024 2 29)) (parseISO (iso 2024 3 28))
                          elif "c-burak"%string [toBurak] _))
            toBurak _ _ _ _).
  - intros t [<-|[]]. right. vm_compute. reflexivity.
  - left. reflexivity.
  - intros t [<-|[]]. vm_compute. reflexivity.
  - intros t [<-|[]]. left. reflexivity.
  - vm_compute. discriminate.
Defined.

(* ================================================================== *)
(** ** Further properties: renewal alerts *)
(* ================================================================== *)

Section RenewalAlerts.

(** Full days between a midnight and an instant, by calendar days. *)
Lemma differenceInDays_calendar (t today : Date) :
  midnight t ->
  differenceInDays t today =
  if (1 <=? calendarDaysUntil t today) && negb (TimeWithinDay today =? 0)
  then calendarDaysUntil t today - 1
  else calendarDaysUntil t today.
Proof.
  intros M. apply midnight_eq in M.
  unfold differenceInDays, calendarDaysUntil, TimeWithinDay in *.
  set (E := Day t) in *. unfold Day. unfold msPerDay in *.
  pose proof (Z.div_mod today 86400000 ltac:(lia)) as D.
  pose proof (Z.mod_pos_bound today 86400000 ltac:(lia)) as B.
  set (T := today / 86400000) in *. set (r := today mod 86400000) in *.
  assert (Q : forall q, t - today = 86400000 * q + Z.rem (t - today) 86400000 ->
              Z.quot (t - today) 86400000 = q).
  { intros q Hq. pose proof (Z.quot_rem' (t - today) 86400000). lia. }
  assert (Ht : t - today = 86400000 * (E - T) - r) by lia.
  pose proof (Z.quot_rem' (t - today) 86400000) as QR.
  assert (R : (0 <= t - today -> 0 <= Z.rem (t - today) 86400000 < 86400000) /\
              (t - today < 0 -> - 86400000 < Z.rem (t - today) 86400000 <= 0)).
  { split; intros.
    - apply Z.rem_bound_pos; lia.
    - pose proof (Z.rem_bound_pos_neg (t - today) 86400000); lia. }
  destruct (Z.leb_spec 1 (E - T)), (Z.eqb_spec r 0); cbn [andb negb]; apply Q; lia.
Qed.

Lemma renewalAlert_days (today : Date) (student : StudentWithCoach) :
  let k := calendarDaysUntil (parseISO (packageEndDate (swc_student student))) today in
  daysRemaining (renewalAlert today student) =
  if (1 <=? k) && negb (TimeWithinDay today =? 0) then k - 1 else k.
Proof.
  cbv zeta. unfold renewalAlert. cbn [daysRemaining].
  apply differenceInDays_calendar, midnight_parseISO.
Qed.

Lemma renewalAlerts_In (today : Date) (students : list StudentWithCoach)
    (a : RenewalAlert) :
  In a (renewalAlerts today students) ->
  exists student, In student students /\ a = renewalAlert today student.
Proof.
  unfold renewalAlerts. cbv zeta. intros I. apply filter_In in I.
  destruct I as (I & _). apply in_map_iff in I. destruct I as (student & <- & I).
  exists student. split; [exact I|reflexivity].
Qed.

End RenewalAlerts.

Lemma renewalAlerts_spec (today : Date) (students : list StudentWithCoach) :
  let daysToGo (s : StudentWithCoach) :=
    calendarDaysUntil (parseISO (packageEndDate (swc_student s))) today in
  map alert_student (renewalAlerts today students) =
  filter (fun s => daysToGo s <=? (if TimeWithinDay today =? 0 then 7 else 8)) students /\
  forall a, In a (renewalAlerts today students) ->
    In (alert_student a) students /\
    daysRemaining a =
      (if (1 <=? daysToGo (alert_student a)) && negb (TimeWithinDay today =? 0)
       then daysToGo (alert_student a) - 1
       else daysToGo (alert_student a)) /\
    (status a = expired <-> daysToGo (alert_student a) < 0) /\
    (status a = expiring <-> 0 <= daysToGo (alert_student a)).
Proof.
  intros daysToGo. split.
  - unfold renewalAlerts. cbv zeta.
    induction students as [|s l IH]; [reflexivity|].
    cbn [map filter]. rewrite (renewalAlert_days today s). fold (daysToGo s).
    destruct (Z.leb_spec 1 (daysToGo s)), (Z.eqb_spec (TimeWithinDay today) 0);
      cbn [andb negb];
      repeat match goal with
             | |- context [?a <=? ?b] => destruct (Z.leb_spec a b)
             | |- context [?a <? ?b] => destruct (Z.ltb_spec a b)
             end; cbn [andb orb map]; try lia;
      try (rewrite IH; reflexivity); try exact IH.
  - intros a I. apply renewalAlerts_In in I. destruct I as (s & I & ->).
    split; [exact I|]. split; [apply renewalAlert_days|].
    unfold renewalAlert. cbn [status alert_student].
    pose proof (differenceInDays_calendar (parseISO (packageEndDate (swc_student s))) today
                  (midnight_parseISO _)) as D.
    fold (daysToGo s) in D |- *. rewrite D.
    destruct (Z.leb_spec 1 (daysToGo s)), (Z.eqb_spec (TimeWithinDay today) 0);
      cbn [andb negb];
      match goal with |- context [?a <? ?b] => destruct (Z.ltb_spec a b) end;
      (split; split; intros; try discriminate; try reflexivity; lia).
Qed.

(** X8. Renewal alerts.  The route fails only when the read of the
    students fails.  Otherwise the alerts keep the order of the students
    read and list exactly those whose package ends at most 8 calendar
    days after today (at most 7 when the route runs at midnight sharp).
    An alert is [expired] exactly when the end date is a day before
    today; a package that ends today is still [expiring].  After midnight
    the day count of a package ending on a later day is one less than the
    number of calendar days to go, so 0 is shown for a package ending
    today and for one ending tomorrow alike. *)
Theorem X8_renewal_alerts (getAllStudents : Promise (list StudentWithCoach))
    (today : Date) :
  let daysToGo (s : StudentWithCoach) :=
    calendarDaysUntil (parseISO (packageEndDate (swc_student s))) today in
  match getAllStudents with
  | Rejected =>
      renewalAlertsRoute getAllStudents today =
      alertsStatus500 "Failed to fetch renewal alerts"
  | Resolved students =>
      exists alerts,
        renewalAlertsRoute getAllStudents today = alertsJson alerts /\
        map alert_student alerts =
        filter (fun s => daysToGo s <=? (if TimeWithinDay today =? 0 then 7 else 8))
               students /\
        forall a, In a alerts ->
          In (alert_student a) students /\
          daysRemaining a =
            (if (1 <=? daysToGo (alert_student a)) && negb (TimeWithinDay today =? 0)
             then daysToGo (alert_student a) - 1
             else daysToGo (alert_student a)) /\
          (status a = expired <-> daysToGo (alert_student a) < 0) /\
          (status a = expiring <-> 0 <= daysToGo (alert_student a))
  end.
Proof.
  intros daysToGo. destruct getAllStudents as [students|]; [|reflexivity].
  exists (renewalAlerts today students). split; [reflexivity|].
  exact (renewalAlerts_spec today students).
Qed.
